(** * reporting_vtbox: header location and loss aggregation

    A shallow embedding of the data path of [1.0.7.py] (class
    [DataProcessorGUI]: [read_csv_with_header_detection],
    [read_excel_with_header_detection], [process_data]) and of the older
    [report_gerantion_for_lossvalidation.py] ([process_data]), with the
    properties of the ingestion and aggregation pipeline proved about it.

    Conventions of the embedding.
    - A text is a [string] of characters with code points below 256; a CSV
      file is the list of its lines, without line terminators.
    - A dialog raised with [messagebox.showerror] followed by [return None]
      is a [Failure] value, one constructor per message of the program.
    - Numbers are exact rationals ([Qc], the canonical rationals): rounding,
      overflow and the infinities of binary64 are outside the embedding.
      [NaN], which pandas uses for a missing value, is a value of its own.
    - The pandas primitives are embedded by their documented behaviour on
      comma separated lines without quoted fields: [read_csv] counts the
      rows to skip in lines, skips blank lines, reads the default
      missing-value markers as [NaN], completes short records and rejects
      long ones; [groupby] sorts the group keys and drops the rows without
      a key.  Labels read from a CSV file stay text.
    - The table, the plot, the buttons and the reports of the window are
      not part of the embedding. *)

From Stdlib Require Import Ascii String QArith Qcanon.
From stdpp Require Import base option list sets strings numbers sorting.

Local Open Scope string_scope.
Local Open Scope list_scope.
Local Set Warnings "-clear-no-such-hyp".

(** ** Text *)

Module Text.

(** [str.isspace] on the code points below 256. *)
Definition isspace (c : ascii) : bool :=
  let n := nat_of_ascii c in
  ((9 <=? n)%nat && (n <=? 13)%nat) || ((28 <=? n)%nat && (n <=? 32)%nat)
  || (n =? 133)%nat || (n =? 160)%nat.

(** [str.lstrip()]. *)
Fixpoint lstrip (s : string) : string :=
  match s with
  | EmptyString => EmptyString
  | String c s' => if isspace c then lstrip s' else s
  end.

Definition is_empty (s : string) : bool :=
  match s with EmptyString => true | String _ _ => false end.

(** [str.rstrip()]: a character is kept unless it is white space and
    nothing but white space follows it. *)
Fixpoint rstrip (s : string) : string :=
  match s with
  | EmptyString => EmptyString
  | String c s' =>
      let r := rstrip s' in
      if isspace c && is_empty r then EmptyString else String c r
  end.

(** [str.strip()]. *)
Definition strip (s : string) : string := rstrip (lstrip s).

(** [s.startswith(p)]. *)
Definition startswith (s p : string) : bool := String.prefix p s.

(** Every character of [s] is white space. *)
Fixpoint all_space (s : string) : bool :=
  match s with
  | EmptyString => true
  | String c s' => isspace c && all_space s'
  end.

(** [s.split(d)] for a one-character delimiter: never an empty list. *)
Fixpoint split (d : ascii) (s : string) : list string :=
  match s with
  | EmptyString => [EmptyString]
  | String c s' =>
      if Ascii.eqb c d then EmptyString :: split d s'
      else match split d s' with
           | [] => [String c EmptyString]
           | f :: fs => String c f :: fs
           end
  end.

(** [sep.join(l)]. *)
Definition join (sep : string) (l : list string) : string :=
  String.concat sep l.

End Text.

(** ** Values, cells and data frames *)

(** A float of the program: a rational or [NaN]. *)
Inductive float := NaN | Num (q : Qc).

(** A cell of a data frame: text, a number, or missing. *)
Inductive cell := CStr (s : string) | CNum (q : Qc) | CNaN.

(** A cell that holds a whole number. *)
Definition CInt (z : Z) : cell := CNum (Qc_of_Z z).

Global Instance float_eq_dec : EqDecision float.
Proof. solve_decision. Defined.
Global Instance cell_eq_dec : EqDecision cell.
Proof. solve_decision. Defined.

(** A [pandas.DataFrame]: the column labels and the rows, every row as
    wide as the labels. *)
Record DataFrame := mkDataFrame {
  columns : list cell;
  rows : list (list cell)
}.

Global Instance DataFrame_eq_dec : EqDecision DataFrame.
Proof. solve_decision. Defined.

(** The dialogs of the program that end a run. *)
Inductive Failure :=
  | NoFileSelected
  | UnsupportedFileType
  | HeaderNotFound
  | MissingColumns (names : list string)
  | EmptyDataError
  | ParserError
  | InvalidSheetChoice
  | UnexpectedError
  | ProcessingError.

Global Instance Failure_eq_dec : EqDecision Failure.
Proof. solve_decision. Defined.

(** The text of the dialog, as the program formats it ([kind] is ["CSV"]
    or ["Excel"]). *)
Definition error_message (kind : string) (e : Failure) : string :=
  match e with
  | NoFileSelected => "Please select a data file first."
  | UnsupportedFileType => "Unsupported file type selected."
  | HeaderNotFound => "Header row not found in the " +:+ kind +:+ " file."
  | MissingColumns names =>
      kind +:+ " file must contain the following columns: "
      +:+ Text.join ", " names
  | EmptyDataError => "The selected CSV file is empty."
  | ParserError =>
      "Error parsing the CSV file. Please ensure it is properly formatted."
  | InvalidSheetChoice => "Invalid sheet name entered."
  | UnexpectedError =>
      "An unexpected error occurred while reading the " +:+ kind +:+ " file"
  | ProcessingError => "An error occurred while processing the data"
  end.

Abbreviation result A := (Failure + A)%type.

(** ** Reading a CSV file *)

Definition header_signature : string := "Time,Metric,Value,Measurement".

Definition required_columns : list string :=
  ["Measurement"; "Percentage Loss"].

(** The test of the scanning loop:
    [line.strip().startswith("Time,Metric,Value,Measurement")]. *)
Definition is_header_line (line : string) : bool :=
  Text.startswith (Text.strip line) header_signature.

(** [for idx, line in enumerate(f): if ...: header_row = idx; break]
    with [None] for the [else] branch of the loop. *)
Fixpoint scan_lines (idx : nat) (f : list string) : option nat :=
  match f with
  | [] => None
  | line :: f' =>
      if is_header_line line then Some idx else scan_lines (S idx) f'
  end.

Definition find_header_row (f : list string) : option nat := scan_lines 0 f.

Module Pandas.

(** The default markers that [read_csv] reads as [NaN]. *)
Definition na_values : list string :=
  [""; "#N/A"; "#N/A N/A"; "#NA"; "-1.#IND"; "-1.#QNAN"; "-NaN"; "-nan";
   "1.#IND"; "1.#QNAN"; "<NA>"; "N/A"; "NA"; "NULL"; "NaN"; "None";
   "n/a"; "nan"; "null"].

Definition cell_of_field (s : string) : cell :=
  if bool_decide (s ∈ na_values) then CNaN else CStr s.

(** A line that [skip_blank_lines] drops: only blanks and tabs. *)
Fixpoint is_blank_line (s : string) : bool :=
  match s with
  | EmptyString => true
  | String c s' =>
      (Ascii.eqb c " " || Ascii.eqb c "009") && is_blank_line s'
  end.

Definition fields (line : string) : list string := Text.split "," line.

(** A record of [width] cells: short records are completed with [NaN]. *)
Definition pad (width : nat) (r : list cell) : list cell :=
  r ++ replicate (width - length r) CNaN.

(** The number of fields of the records of a table: that of the header
    or, when it is longer, that of the first record. *)
Definition table_width (names : list string) (records : list (list string))
  : nat :=
  match records with
  | [] => length names
  | r :: _ => Nat.max (length names) (length r)
  end.

(** The cells of the record [r] under [n] labels in a table of width [w]:
    the record is completed with [NaN], and its [w - n] leading cells, the
    index that [read_csv] infers when the records are longer than the
    header, are not in a column. *)
Definition record_cells (n w : nat) (r : list string) : list cell :=
  drop (w - n) (pad w (cell_of_field <$> r)).

(** The frame with [header] as the line of labels and [body] as the data
    lines; a record longer than the width of the table is a parser
    error. *)
Definition parse_table (header : string) (body : list string)
  : result DataFrame :=
  let names := fields header in
  let records := fields <$> body in
  let width := table_width names records in
  if forallb (λ r, (length r <=? width)%nat) records
  then inr {| columns := CStr <$> names;
              rows := record_cells (length names) width <$> records |}
  else inl ParserError.

(** [pd.read_csv(f, skiprows=range(0, header_row), header=0)]. *)
Definition read_csv (f : list string) (header_row : nat)
  : result DataFrame :=
  match filter (λ l, is_blank_line l = false) (drop header_row f) with
  | [] => inl EmptyDataError
  | header :: body => parse_table header body
  end.

End Pandas.

(** [all(col in df.columns for col in required_columns)]. *)
Definition has_required_columns (df : DataFrame) : bool :=
  forallb (λ col, bool_decide (CStr col ∈ columns df)) required_columns.

(** The validation that ends both readers of [1.0.7.py]. *)
Definition validate (df : DataFrame) : result DataFrame :=
  if has_required_columns df then inr df
  else inl (MissingColumns required_columns).

(** [DataProcessorGUI.read_csv_with_header_detection]. *)
Definition read_csv_with_header_detection (f : list string)
  : result DataFrame :=
  match find_header_row f with
  | None => inl HeaderNotFound
  | Some header_row =>
      match Pandas.read_csv f header_row with
      | inl e => inl e
      | inr df => validate df
      end
  end.

(** ** Cleaning and aggregation *)

(** The two check boxes of the window. *)
Record Options := mkOptions {
  include_average : bool;
  include_overall_average : bool
}.

(** A row of the [grouped] frame: the columns [Measurement], [Min Loss],
    [Max Loss] and, when requested, [Average]. *)
Record GroupSummary := mkGroupSummary {
  Measurement : cell;
  Min_Loss : Qc;
  Max_Loss : Qc;
  Average : option Qc
}.

Global Instance GroupSummary_eq_dec : EqDecision GroupSummary.
Proof. solve_decision. Defined.

(** What a successful run of [process_data] leaves behind: the count of
    dropped rows, the warning dialog if one was shown, [self.grouped_data],
    [self.overall_min_avg] and [self.overall_max_avg]. *)
Record Processed := mkProcessed {
  dropped_rows : nat;
  warning : option nat;
  grouped_data : list GroupSummary;
  overall_min_avg : option float;
  overall_max_avg : option float
}.

Global Instance Processed_eq_dec : EqDecision Processed.
Proof. solve_decision. Defined.

(** The order in which [groupby] sorts its keys: numbers by value, then
    text by code points, then missing values. *)
Definition cell_le (a b : cell) : Prop :=
  match a, b with
  | CNum x, CNum y => (x ≤ y)%Qc
  | CNum _, _ => True
  | CStr _, CNum _ => False
  | CStr s, CStr t => String.le s t
  | CStr _, CNaN => True
  | CNaN, CNaN => True
  | CNaN, _ => False
  end.

Global Instance cell_le_dec : RelDecision cell_le.
Proof. intros [s|x|] [t|y|]; simpl; apply _. Defined.


Definition qmin (x y : Qc) : Qc := if decide (x ≤ y)%Qc then x else y.
Definition qmax (x y : Qc) : Qc := if decide (x ≤ y)%Qc then y else x.

Definition Qc_of_nat (n : nat) : Qc := Qc_of_Z (Z.of_nat n).

Module Series.

(** [Series.min()], [Series.max()] of a group: [None] for no value. *)
Definition min (vs : list Qc) : option Qc :=
  match vs with [] => None | v :: vs' => Some (foldl qmin v vs') end.

Definition max (vs : list Qc) : option Qc :=
  match vs with [] => None | v :: vs' => Some (foldl qmax v vs') end.

Definition sum (vs : list Qc) : Qc := foldr Qcplus 0%Qc vs.

(** [Series.mean()]: [NaN] for an empty series. *)
Definition mean (vs : list Qc) : float :=
  match vs with
  | [] => NaN
  | _ => Num (sum vs / Qc_of_nat (length vs))%Qc
  end.

End Series.

Section Aggregation.

(** The conversion of a text to a number that [pd.to_numeric] applies,
    [None] when the text is not a number. *)
Context (to_float : string → option Qc).

(** [pd.to_numeric(_, errors='coerce')] on one cell. *)
Definition to_numeric (c : cell) : float :=
  match c with
  | CNum q => Num q
  | CStr s => match to_float s with Some q => Num q | None => NaN end
  | CNaN => NaN
  end.

(** The position of the column with label [name], [None] where
    [df[name]] raises [KeyError]. *)
Definition column_index (df : DataFrame) (name : string) : option nat :=
  fst <$> list_find (λ c, c = CStr name) (columns df).

Definition at_column (i : nat) (row : list cell) : cell :=
  default CNaN (row !! i).

(** The two columns that the rest of [process_data] reads, after
    [df['Percentage Loss'] = pd.to_numeric(...)]: the label and the
    coerced value of every row. *)
Definition records (df : DataFrame) (k v : nat) : list (cell * float) :=
  (λ row, (at_column k row, to_numeric (at_column v row))) <$> rows df.

(** [df.dropna(subset=['Percentage Loss'])]. *)
Definition dropna (recs : list (cell * float)) : list (cell * Qc) :=
  omap (λ r, match r.2 with Num q => Some (r.1, q) | NaN => None end) recs.

Definition is_key (c : cell) : bool :=
  match c with CNaN => false | _ => true end.

(** The keys of [df.groupby("Measurement")]: the distinct labels,
    sorted; a missing label is no key. *)
Definition group_keys (recs : list (cell * Qc)) : list cell :=
  merge_sort cell_le (remove_dups (filter (λ c, is_key c = true) recs.*1)).

(** The values of the rows of one group, in the order of the rows. *)
Definition group_values (k : cell) (recs : list (cell * Qc)) : list Qc :=
  (filter (λ r, r.1 = k) recs).*2.

(** [.agg(['min', 'max'])] on one group. *)
Definition agg_min_max (k : cell) (vs : list Qc) : option GroupSummary :=
  match Series.min vs, Series.max vs with
  | Some lo, Some hi =>
      Some {| Measurement := k; Min_Loss := lo; Max_Loss := hi;
              Average := None |}
  | _, _ => None
  end.

(** [df.groupby("Measurement")["Percentage Loss"].agg(['min', 'max'])
    .reset_index()] with the columns renamed. *)
Definition groupby_agg (recs : list (cell * Qc)) : list GroupSummary :=
  omap (λ k, agg_min_max k (group_values k recs)) (group_keys recs).

(** [grouped['Average'] = (grouped['Min Loss'] + grouped['Max Loss']) / 2]. *)
Definition with_average (g : GroupSummary) : GroupSummary :=
  {| Measurement := Measurement g; Min_Loss := Min_Loss g;
     Max_Loss := Max_Loss g;
     Average := Some ((Min_Loss g + Max_Loss g) / 2)%Qc |}.

(** The statements of [process_data] from [# Data Cleaning] to
    [self.grouped_data = grouped], on the label and the coerced value
    of every row. *)
Definition clean_and_group (opts : Options) (recs : list (cell * float))
  : Processed :=
  let initial_row_count := length recs in
  let cleaned := dropna recs in
  let cleaned_row_count := length cleaned in
  let dropped := initial_row_count - cleaned_row_count in
  let grouped := groupby_agg cleaned in
  let grouped :=
    if include_average opts then with_average <$> grouped else grouped in
  {| dropped_rows := dropped;
     warning := if (0 <? dropped)%nat then Some dropped else None;
     grouped_data := grouped;
     overall_min_avg :=
       if include_overall_average opts
       then Some (Series.mean (Min_Loss <$> grouped)) else None;
     overall_max_avg :=
       if include_overall_average opts
       then Some (Series.mean (Max_Loss <$> grouped)) else None |}.

(** The part of [process_data] after the file is read.  A frame without
    one of the two columns raises [KeyError], which the handler of
    [process_data] reports. *)
Definition aggregate (opts : Options) (df : DataFrame) : result Processed :=
  match column_index df "Percentage Loss", column_index df "Measurement" with
  | Some v, Some k => inr (clean_and_group opts (records df k v))
  | _, _ => inl ProcessingError
  end.

(** The table that is grouped: the rows of [df] that [dropna] keeps. *)
Definition cleaned_table (df : DataFrame) : list (cell * Qc) :=
  match column_index df "Percentage Loss", column_index df "Measurement" with
  | Some v, Some k => dropna (records df k v)
  | _, _ => []
  end.

(** The rows of [df] whose value is not a number. *)
Definition invalid_rows (df : DataFrame) : list (list cell) :=
  match column_index df "Percentage Loss" with
  | Some v => filter (λ row, to_numeric (at_column v row) = NaN) (rows df)
  | None => []
  end.

(** [df] without the rows whose value is not a number. *)
Definition valid_part (df : DataFrame) : DataFrame :=
  match column_index df "Percentage Loss" with
  | Some v =>
      {| columns := columns df;
         rows := filter (λ row, to_numeric (at_column v row) ≠ NaN)
                   (rows df) |}
  | None => df
  end.

End Aggregation.

(** ** Reading a workbook *)

(** A sheet as [pd.read_excel(..., header=None)] returns it, and a
    workbook as the list of its sheets with their names, in order. *)
Definition Sheet : Type := list (list cell).
Definition Workbook : Type := list (string * Sheet).

Module Excel.

(** [pd.read_excel(file_path, sheet_name=sheet, header=None)]. *)
Definition read_sheet (wb : Workbook) (sheet : string) : option Sheet :=
  snd <$> (snd <$> list_find (λ p, p.1 = sheet) wb).

(** [pd.read_excel(file_path, sheet_name=sheet, skiprows=range(0, idx),
    header=0)]: [None] where pandas raises for an unknown sheet. *)
Definition read_excel (wb : Workbook) (sheet : string) (idx : nat)
  : option DataFrame :=
  match read_sheet wb sheet with
  | None => None
  | Some temp_df =>
      match drop idx temp_df with
      | [] => Some {| columns := []; rows := [] |}
      | header :: body => Some {| columns := header; rows := body |}
      end
  end.

End Excel.

(** [for idx, row in temp_df.iterrows():
       if isinstance(row[0], str) and row[0].startswith("Time"): ... break]
    A row without a first cell raises. *)
Fixpoint scan_rows (idx : nat) (temp_df : Sheet) : result (option nat) :=
  match temp_df with
  | [] => inr None
  | [] :: _ => inl UnexpectedError
  | (CStr s :: _) :: temp_df' =>
      if Text.startswith s "Time" then inr (Some idx)
      else scan_rows (S idx) temp_df'
  | _ :: temp_df' => scan_rows (S idx) temp_df'
  end.

(** [for sheet in sheet_names: ... if df is not None: break]: the first
    sheet with a header row, with the index of that row and the frame
    read below it. *)
Fixpoint search_sheets (wb : Workbook) (sheet_names : list string)
  : result (option (string * nat * DataFrame)) :=
  match sheet_names with
  | [] => inr None
  | sheet :: sheet_names' =>
      match Excel.read_sheet wb sheet with
      | None => inl UnexpectedError
      | Some temp_df =>
          match scan_rows 0 temp_df with
          | inl e => inl e
          | inr (Some idx) =>
              match Excel.read_excel wb sheet idx with
              | Some df => inr (Some (sheet, idx, df))
              | None => inl UnexpectedError
              end
          | inr None => search_sheets wb sheet_names'
          end
      end
  end.

(** A run of the workbook reader: whether the sheet dialog was opened,
    and the frame or the failure. *)
Record ExcelRun := mkExcelRun {
  prompted : bool;
  outcome : result DataFrame
}.

(** [DataProcessorGUI.read_excel_with_header_detection]; [askstring] is
    what [simpledialog.askstring] returns when the dialog is opened,
    [None] for a dialog that is cancelled. *)
Definition read_excel_with_header_detection
    (wb : Workbook) (askstring : option string) : ExcelRun :=
  let sheet_names := wb.*1 in
  match search_sheets wb sheet_names with
  | inl e => {| prompted := false; outcome := inl e |}
  | inr None => {| prompted := false; outcome := inl HeaderNotFound |}
  | inr (Some (selected_sheet, idx, df)) =>
      if (1 <? length (filter (λ n, n = selected_sheet) sheet_names))%nat
      then
        match askstring with
        | Some selected_sheet' =>
            if bool_decide (selected_sheet' ∈ sheet_names)
            then {| prompted := true;
                    outcome :=
                      match Excel.read_excel wb selected_sheet' idx with
                      | Some df' => validate df'
                      | None => inl UnexpectedError
                      end |}
            else {| prompted := true; outcome := inl InvalidSheetChoice |}
        | None => {| prompted := true; outcome := inl InvalidSheetChoice |}
        end
      else {| prompted := false; outcome := validate df |}
  end.

(** ** The two programs *)

(** [self.data_file]: nothing selected, a [.csv] file, an [.xlsx] or
    [.xls] workbook, or a file with another extension. *)
Inductive DataFile :=
  | NoFile
  | CsvFile (f : list string)
  | ExcelFile (wb : Workbook)
  | OtherFile.

(** [DataProcessorGUI.process_data] of [1.0.7.py]. *)
Definition process_data (to_float : string → option Qc) (opts : Options)
    (data_file : DataFile) (askstring : option string) : result Processed :=
  match data_file with
  | NoFile => inl NoFileSelected
  | CsvFile f =>
      match read_csv_with_header_detection f with
      | inl e => inl e
      | inr df => aggregate to_float opts df
      end
  | ExcelFile wb =>
      match outcome (read_excel_with_header_detection wb askstring) with
      | inl e => inl e
      | inr df => aggregate to_float opts df
      end
  | OtherFile => inl UnsupportedFileType
  end.

Module Legacy.

(** [DataProcessorGUI.process_data] of
    [report_gerantion_for_lossvalidation.py]: the same scan for the
    header, no validation of the columns, no averages; every exception
    ends in the handler of [process_data]. *)
Definition process_data (to_float : string → option Qc)
    (csv_file : option (list string)) : result Processed :=
  match csv_file with
  | None => inl NoFileSelected
  | Some f =>
      match find_header_row f with
      | None => inl HeaderNotFound
      | Some header_row =>
          match Pandas.read_csv f header_row with
          | inl _ => inl ProcessingError
          | inr df => aggregate to_float (mkOptions false false) df
          end
      end
  end.

End Legacy.

(** ** A coercion for plain decimal numerals

    [decimal] reads an optional sign, digits and an optional fraction; it
    instantiates [to_float] where a property is run on a concrete file. *)

Module Decimal.

Definition digit (c : ascii) : option Z :=
  let n := nat_of_ascii c in
  if (48 <=? n)%nat && (n <=? 57)%nat then Some (Z.of_nat (n - 48))
  else None.

(** The digits at the front of [s], added to the mantissa [m]; the
    number of digits read; the rest of [s]. *)
Fixpoint read_digits (s : string) (m : Z) (n : nat) : Z * nat * string :=
  match s with
  | EmptyString => (m, n, s)
  | String c s' =>
      match digit c with
      | Some d => read_digits s' (10 * m + d)%Z (S n)
      | None => (m, n, s)
      end
  end.

Definition unsigned (s : string) : option Q :=
  let '(m, n, rest) := read_digits s 0%Z 0 in
  match rest with
  | EmptyString => if (n =? 0)%nat then None else Some (m # 1)%Q
  | String "." rest' =>
      let '(m', n', rest'') := read_digits rest' m 0 in
      match rest'' with
      | EmptyString =>
          if (n + n' =? 0)%nat then None
          else Some (m' # Pos.pow 10 (Pos.of_nat n'))%Q
      | _ => None
      end
  | _ => None
  end.

Definition decimal (s : string) : option Qc :=
  match Text.strip s with
  | String "-" s' => (λ q, Q2Qc (- q)) <$> unsigned s'
  | String "+" s' => Q2Qc <$> unsigned s'
  | s' => Q2Qc <$> unsigned s'
  end.

End Decimal.

(** ** Vocabulary of the statements *)

(** The lines of [post] that hold a record: those that are not blank. *)
Definition data_lines (post : list string) : list string :=
  filter (λ l, Pandas.is_blank_line l = false) post.

(** What is read below the header line [h]: the records of the data lines
    of [post], under the labels of [h]. *)
Definition table_below (h : string) (post : list string) : result DataFrame :=
  Pandas.parse_table h (data_lines post).

(** The required columns that the labels of [df] lack, in the order of
    [required_columns]. *)
Definition missing_columns (df : DataFrame) : list string :=
  filter (λ col, CStr col ∉ columns df) required_columns.

(** The sheet has a row whose first cell is a text that starts with
    ["Time"]. *)
Definition has_header_row (temp_df : Sheet) : Prop :=
  ∃ s row, CStr s :: row ∈ temp_df ∧ Text.startswith s "Time" = true.

(** The least and the greatest member of a list of values. *)
Definition is_min (vs : list Qc) (m : Qc) : Prop :=
  m ∈ vs ∧ ∀ x, x ∈ vs → (m ≤ x)%Qc.

Definition is_max (vs : list Qc) (m : Qc) : Prop :=
  m ∈ vs ∧ ∀ x, x ∈ vs → (x ≤ m)%Qc.

(** The test of the loop over the rows of a sheet:
    [isinstance(row[0], str) and row[0].startswith("Time")]. *)
Definition is_header_row (row : list cell) : bool :=
  match row with
  | CStr s :: _ => Text.startswith s "Time"
  | _ => false
  end.

(** Rows that the loop over a sheet passes by: each has a first cell and
    fails the test. *)
Definition plain_rows (temp_df : Sheet) : bool :=
  forallb (λ row, match row with
                  | [] => false
                  | _ => negb (is_header_row row)
                  end) temp_df.

(** ** The window of [1.0.7.py] and its report *)

Module Gui.

(** What [process_data] leaves in the window and [generate_report] reads:
    [self.grouped_data], as its column labels and its rows, the two
    overall averages, and whether the report buttons are enabled. *)
Record State := mkState {
  grouped_columns : list string;
  grouped_rows : list GroupSummary;
  state_overall_min_avg : option float;
  state_overall_max_avg : option float;
  buttons_enabled : bool
}.


(** The message boxes of [process_data]. *)
Inductive Dialog :=
  | ShowError (e : Failure)
  | ShowWarning (dropped : nat)
  | ShowInfo.

(** [process_data] as a step of the window: a failure shows its dialog
    and returns before any attribute is assigned; a success assigns the
    averages and the frame, enables the buttons and shows the warning, if
    any, and the success dialog. *)
Definition process_data (to_float : string → option Qc) (opts : Options)
    (data_file : DataFile) (askstring : option string) (w : State)
  : State * list Dialog :=
  match process_data to_float opts data_file askstring with
  | inl e => (w, [ShowError e])
  | inr p =>
      ({| grouped_columns :=
            ["Measurement"; "Min Loss"; "Max Loss"]
            ++ (if include_average opts then ["Average"] else []);
          grouped_rows := grouped_data p;
          state_overall_min_avg := overall_min_avg p;
          state_overall_max_avg := overall_max_avg p;
          buttons_enabled := true |},
       match warning p with
       | Some dropped => [ShowWarning dropped; ShowInfo]
       | None => [ShowInfo]
       end)
  end.





End Gui.

(** ** Several files: [1.0.5.py] and [1.0.3.py] *)

Module Combined.

(** The dialogs that end a run of the programs for several files. *)
Inductive Failure :=
  | NoFilesSelected
  | NoValidData
  | ProcessingError.

(** A row of [self.combined_data]: a row of the summary of one file with
    its [File Source]. *)
Definition Row : Type := string * GroupSummary.

(** The body of the loop for a file, given by its name and its lines,
    whose header row is found: the frame is read, cleaned and grouped, and
    every row of the summary gets the name of the file; [None] when an
    exception is raised. *)
Definition grouped_frame (to_float : string → option Qc)
    (file : string * list string) (header_row : nat) : option (list Row) :=
  match Pandas.read_csv file.2 header_row with
  | inl _ => None
  | inr df =>
      match aggregate to_float (mkOptions false false) df with
      | inl _ => None
      | inr p => Some ((λ g, (file.1, g)) <$> grouped_data p)
      end
  end.

(** [for file_path in self.csv_files: ...]: the names of the files that
    are skipped with a warning, in the order of the warnings, and
    [all_grouped_frames], or [None] when the body raises. *)
Fixpoint process_files (to_float : string → option Qc)
    (csv_files : list (string * list string))
  : list string * option (list (list Row)) :=
  match csv_files with
  | [] => ([], Some [])
  | file :: csv_files' =>
      match find_header_row file.2 with
      | None =>
          let '(skipped, frames) := process_files to_float csv_files' in
          (file.1 :: skipped, frames)
      | Some header_row =>
          match grouped_frame to_float file header_row with
          | None => ([], None)
          | Some grouped =>
              let '(skipped, frames) := process_files to_float csv_files' in
              (skipped, (grouped ::.) <$> frames)
          end
      end
  end.

(** The minimum of the minima and the maximum of the maxima of one
    group of the combined frame. *)
Definition agg_min_of_max (k : cell) (mins maxs : list Qc)
  : option GroupSummary :=
  match Series.min mins, Series.max maxs with
  | Some lo, Some hi =>
      Some {| Measurement := k; Min_Loss := lo; Max_Loss := hi;
              Average := None |}
  | _, _ => None
  end.

(** [self.combined_data.groupby("Measurement")
      .agg({"Min Loss": "min", "Max Loss": "max"}).reset_index()]. *)
Definition aggregated_for_plot (combined_data : list Row)
  : list GroupSummary :=
  let mins := (λ r, (Measurement r.2, Min_Loss r.2)) <$> combined_data in
  let maxs := (λ r, (Measurement r.2, Max_Loss r.2)) <$> combined_data in
  omap (λ k, agg_min_of_max k (group_values k mins) (group_values k maxs))
    (group_keys mins).

(** A run of [process_data]: the files skipped with a warning,
    [self.combined_data] after the run, and the frame that is plotted or
    the failure. *)
Record Run := mkRun {
  skipped : list string;
  combined_data : list Row;
  outcome : Failure + list GroupSummary
}.

(** [process_data] of [1.0.5.py] and [1.0.3.py]; [previous] is
    [self.combined_data] before the run, which is cleared once the
    selection is seen not to be empty. *)
Definition process_data (to_float : string → option Qc)
    (csv_files : list (string * list string)) (previous : list Row) : Run :=
  match csv_files with
  | [] => {| skipped := []; combined_data := previous;
             outcome := inl NoFilesSelected |}
  | _ =>
      match process_files to_float csv_files with
      | (skipped, None) =>
          {| skipped := skipped; combined_data := [];
             outcome := inl ProcessingError |}
      | (skipped, Some []) =>
          {| skipped := skipped; combined_data := [];
             outcome := inl NoValidData |}
      | (skipped, Some all_grouped_frames) =>
          {| skipped := skipped;
             combined_data := mjoin all_grouped_frames;
             outcome :=
               inr (aggregated_for_plot (mjoin all_grouped_frames)) |}
      end
  end.

(** The cleaned table of a file: that of the frame read below its header
    row, empty for a file without one. *)
Definition cleaned_of (to_float : string → option Qc)
    (file : string * list string) : list (cell * Qc) :=
  match find_header_row file.2 with
  | None => []
  | Some header_row =>
      match Pandas.read_csv file.2 header_row with
      | inl _ => []
      | inr df => cleaned_table to_float df
      end
  end.

End Combined.

(** * Properties *)

(** ** Stripping and the header test *)

Lemma lstrip_all_space (ws s : string) :
  Text.all_space ws = true → Text.lstrip (ws +:+ s) = Text.lstrip s.
Proof.
  induction ws as [|c ws IH]; simpl; [done|].
  intros [Hc Hws]%andb_true_iff. rewrite Hc. auto.
Qed.

Lemma rstrip_keeps (c : ascii) (s : string) :
  Text.isspace c = false →
  Text.rstrip (String c s) = String c (Text.rstrip s).
Proof. intros Hc. simpl. by rewrite Hc. Qed.

Lemma prefix_app (p s : string) : String.prefix p (p +:+ s) = true.
Proof.
  induction p as [|c p IH]; simpl; [by destruct s|].
  destruct (ascii_dec c c); [done|congruence].
Qed.

Lemma strip_signature (ws rest : string) :
  Text.all_space ws = true →
  Text.strip (ws +:+ header_signature +:+ rest)
  = header_signature +:+ Text.rstrip rest.
Proof.
  intros Hws. unfold Text.strip. rewrite lstrip_all_space by done.
  unfold header_signature.
  change (Text.lstrip ("Time,Metric,Value,Measurement" +:+ rest))
    with ("Time,Metric,Value,Measurement" +:+ rest).
  unfold String.app. cbn [String.append].
  by rewrite !rstrip_keeps by reflexivity.
Qed.

Lemma blank_line_strip (s : string) :
  Pandas.is_blank_line s = true → Text.lstrip s = "".
Proof.
  induction s as [|c s IH]; simpl; [done|].
  intros [Hc Hs]%andb_true_iff.
  assert (Text.isspace c = true) as ->; [|auto].
  apply orb_true_iff in Hc as [Hc|Hc]; apply Ascii.eqb_eq in Hc; by subst.
Qed.

Lemma header_line_not_blank (h : string) :
  is_header_line h = true → Pandas.is_blank_line h = false.
Proof.
  intros Hh. destruct (Pandas.is_blank_line h) eqn:Hb; [|done].
  unfold is_header_line, Text.strip in Hh.
  by rewrite (blank_line_strip _ Hb) in Hh.
Qed.

(** ** The scanning loop *)

Lemma scan_lines_found (pre post : list string) (h : string) (idx : nat) :
  forallb (λ l, negb (is_header_line l)) pre = true →
  is_header_line h = true →
  scan_lines idx (pre ++ h :: post) = Some (idx + length pre).
Proof.
  revert idx. induction pre as [|l pre IH]; simpl; intros idx Hpre Hh.
  - rewrite Hh. f_equal. lia.
  - apply andb_true_iff in Hpre as [Hl Hpre].
    apply negb_true_iff in Hl. rewrite Hl, IH by done. f_equal. lia.
Qed.



Lemma read_csv_at_header (pre post : list string) (h : string) :
  is_header_line h = true →
  Pandas.read_csv (pre ++ h :: post) (length pre) = table_below h post.
Proof.
  intros Hh. unfold Pandas.read_csv, table_below.
  rewrite drop_app_length, filter_cons.
  by rewrite decide_True by by apply header_line_not_blank.
Qed.

(** ** The order of the group keys *)

Global Instance cell_le_trans : Transitive cell_le.
Proof.
  intros [s|x|] [t|y|] [u|z|]; simpl; try done.
  - apply (transitivity (R := String.le)).
  - apply Qcle_trans.
Qed.

Global Instance cell_le_total : Total cell_le.
Proof.
  intros [s|x|] [t|y|]; simpl; auto.
  - apply (total String.le).
  - apply (total Qcle).
Qed.

Global Instance cell_le_antisym : AntiSymm (=) cell_le.
Proof.
  intros [s|x|] [t|y|]; simpl; try done.
  - intros H1 H2. f_equal. by apply (anti_symm String.le).
  - intros H1 H2. f_equal. by apply Qcle_antisym.
Qed.

Lemma cell_le_refl (a : cell) : cell_le a a.
Proof. destruct (total cell_le a a); done. Qed.



(** ** Minimum and maximum of a group *)

Lemma qmin_le_l (x y : Qc) : (qmin x y ≤ x)%Qc.
Proof.
  unfold qmin. case_decide; [done|].
  by apply Qclt_le_weak, Qclt_nge.
Qed.

Lemma qmin_le_r (x y : Qc) : (qmin x y ≤ y)%Qc.
Proof. unfold qmin. by case_decide. Qed.

Lemma qmin_cases (x y : Qc) : qmin x y = x ∨ qmin x y = y.
Proof. unfold qmin. case_decide; auto. Qed.

Lemma qmax_ge_l (x y : Qc) : (x ≤ qmax x y)%Qc.
Proof. unfold qmax. by case_decide. Qed.

Lemma qmax_ge_r (x y : Qc) : (y ≤ qmax x y)%Qc.
Proof.
  unfold qmax. case_decide; [done|].
  by apply Qclt_le_weak, Qclt_nge.
Qed.

Lemma qmax_cases (x y : Qc) : qmax x y = x ∨ qmax x y = y.
Proof. unfold qmax. case_decide; auto. Qed.

Lemma foldl_qmin_spec (vs : list Qc) (v : Qc) :
  foldl qmin v vs ∈ v :: vs ∧ ∀ x, x ∈ v :: vs → (foldl qmin v vs ≤ x)%Qc.
Proof.
  revert v. induction vs as [|w vs IH]; intros v; simpl.
  - split; [set_solver|]. intros x ->%list_elem_of_singleton. done.
  - destruct (IH (qmin v w)) as [Hin Hle]. split.
    + apply elem_of_cons in Hin as [Hin|Hin]; [|set_solver].
      rewrite Hin. destruct (qmin_cases v w) as [->| ->]; set_solver.
    + intros x Hx.
      assert (foldl qmin (qmin v w) vs ≤ qmin v w)%Qc as H0
        by (apply Hle; set_solver).
      apply elem_of_cons in Hx as [->|Hx].
      { eapply Qcle_trans; [exact H0|apply qmin_le_l]. }
      apply elem_of_cons in Hx as [->|Hx].
      { eapply Qcle_trans; [exact H0|apply qmin_le_r]. }
      apply Hle. set_solver.
Qed.

Lemma foldl_qmax_spec (vs : list Qc) (v : Qc) :
  foldl qmax v vs ∈ v :: vs ∧ ∀ x, x ∈ v :: vs → (x ≤ foldl qmax v vs)%Qc.
Proof.
  revert v. induction vs as [|w vs IH]; intros v; simpl.
  - split; [set_solver|]. intros x ->%list_elem_of_singleton. done.
  - destruct (IH (qmax v w)) as [Hin Hle]. split.
    + apply elem_of_cons in Hin as [Hin|Hin]; [|set_solver].
      rewrite Hin. destruct (qmax_cases v w) as [->| ->]; set_solver.
    + intros x Hx.
      assert (qmax v w ≤ foldl qmax (qmax v w) vs)%Qc as H0
        by (apply Hle; set_solver).
      apply elem_of_cons in Hx as [->|Hx].
      { eapply Qcle_trans; [apply qmax_ge_l|exact H0]. }
      apply elem_of_cons in Hx as [->|Hx].
      { eapply Qcle_trans; [apply qmax_ge_r|exact H0]. }
      apply Hle. set_solver.
Qed.

Lemma series_min_spec (vs : list Qc) (m : Qc) :
  Series.min vs = Some m ↔ is_min vs m.
Proof.
  destruct vs as [|v vs]; simpl.
  - split; [done|]. intros [H _]. by apply elem_of_nil in H.
  - destruct (foldl_qmin_spec vs v) as [Hin Hle]. split.
    + intros [= <-]. by split.
    + intros [Hm Hm']. f_equal. apply Qcle_antisym; auto.
Qed.

Lemma series_max_spec (vs : list Qc) (m : Qc) :
  Series.max vs = Some m ↔ is_max vs m.
Proof.
  destruct vs as [|v vs]; simpl.
  - split; [done|]. intros [H _]. by apply elem_of_nil in H.
  - destruct (foldl_qmax_spec vs v) as [Hin Hle]. split.
    + intros [= <-]. by split.
    + intros [Hm Hm']. f_equal. apply Qcle_antisym; auto.
Qed.



(** ** Grouping *)

Lemma elem_of_group_keys (k : cell) (recs : list (cell * Qc)) :
  k ∈ group_keys recs ↔ is_key k = true ∧ k ∈ recs.*1.
Proof.
  unfold group_keys.
  by rewrite merge_sort_Permutation, elem_of_remove_dups, list_elem_of_filter.
Qed.

Lemma group_keys_NoDup (recs : list (cell * Qc)) : NoDup (group_keys recs).
Proof.
  unfold group_keys. rewrite merge_sort_Permutation. apply NoDup_remove_dups.
Qed.




Lemma elem_of_group_values (k : cell) (v : Qc) (recs : list (cell * Qc)) :
  v ∈ group_values k recs ↔ (k, v) ∈ recs.
Proof.
  unfold group_values. rewrite list_elem_of_fmap. split.
  - intros ([k' v'] & -> & [Hk Hin]%list_elem_of_filter).
    simpl in *. by subst.
  - intros Hin. exists (k, v). split; [done|].
    by apply list_elem_of_filter.
Qed.

Lemma group_values_nonempty (k : cell) (recs : list (cell * Qc)) :
  k ∈ group_keys recs → group_values k recs ≠ [].
Proof.
  intros [_ Hk]%elem_of_group_keys.
  apply list_elem_of_fmap in Hk as ([k' v] & -> & Hin).
  simpl. intros Hnil. apply (elem_of_group_values k' v) in Hin.
  rewrite Hnil in Hin. by apply elem_of_nil in Hin.
Qed.

Lemma agg_min_max_Some (k : cell) (vs : list Qc) :
  vs ≠ [] →
  ∃ lo hi, Series.min vs = Some lo ∧ Series.max vs = Some hi
    ∧ agg_min_max k vs = Some (mkGroupSummary k lo hi None).
Proof.
  destruct vs as [|v vs]; [done|]. intros _.
  by exists (foldl qmin v vs), (foldl qmax v vs).
Qed.

Lemma omap_keys {A} (f : cell → option A) (key : A → cell) (ks : list cell) :
  (∀ k, k ∈ ks → ∃ g, f k = Some g ∧ key g = k) →
  key <$> omap f ks = ks.
Proof.
  induction ks as [|k ks IH]; intros Hks; [done|]. simpl.
  destruct (Hks k) as (g & -> & Hg); [by left|]. rewrite fmap_cons.
  f_equal; [done|]. apply IH. intros k' Hk'. apply Hks. by right.
Qed.

(** No group is lost: the summary has one row per key, in the order of
    the keys. *)
Lemma groupby_agg_keys (recs : list (cell * Qc)) :
  Measurement <$> groupby_agg recs = group_keys recs.
Proof.
  apply omap_keys. intros k Hk.
  destruct (agg_min_max_Some k (group_values k recs)) as (lo & hi & _ & _ & H).
  - by apply group_values_nonempty.
  - eauto.
Qed.

Lemma elem_of_groupby_agg (g : GroupSummary) (recs : list (cell * Qc)) :
  g ∈ groupby_agg recs ↔
    Measurement g ∈ group_keys recs
    ∧ is_min (group_values (Measurement g) recs) (Min_Loss g)
    ∧ is_max (group_values (Measurement g) recs) (Max_Loss g)
    ∧ Average g = None.
Proof.
  unfold groupby_agg. rewrite list_elem_of_omap. split.
  - intros (k & Hk & Hg).
    destruct (agg_min_max_Some k (group_values k recs))
      as (lo & hi & Hlo & Hhi & H); [by apply group_values_nonempty|].
    rewrite H in Hg. injection Hg as <-. simpl.
    by rewrite <-series_min_spec, <-series_max_spec.
  - intros (Hk & Hlo & Hhi & Havg). exists (Measurement g). split; [done|].
    apply series_min_spec in Hlo. apply series_max_spec in Hhi.
    unfold agg_min_max. rewrite Hlo, Hhi. destruct g; simpl in *. by subst.
Qed.


(** ** Cleaning *)

Lemma dropna_length (recs : list (cell * float)) :
  length (dropna recs) + length (filter (λ r, r.2 = NaN) recs) = length recs.
Proof.
  induction recs as [|[k [|q]] recs IH]; [done|..].
  - rewrite filter_cons, decide_True by done. simpl. lia.
  - rewrite filter_cons, decide_False by done. simpl. lia.
Qed.

Lemma dropna_filter_valid (recs : list (cell * float)) :
  dropna (filter (λ r, r.2 ≠ NaN) recs) = dropna recs.
Proof.
  induction recs as [|[k [|q]] recs IH]; [done|..].
  - by rewrite filter_cons, decide_False by (simpl; auto).
  - rewrite filter_cons, decide_True by done. simpl. by f_equal.
Qed.

Lemma dropna_valid_length (recs : list (cell * float)) :
  length (dropna (filter (λ r, r.2 ≠ NaN) recs))
  = length (filter (λ r, r.2 ≠ NaN) recs).
Proof.
  induction recs as [|[k [|q]] recs IH]; [done|..].
  - by rewrite filter_cons, decide_False by (simpl; auto).
  - rewrite filter_cons, decide_True by done. simpl. by f_equal.
Qed.


Section CleaningFacts.

Context (to_float : string → option Qc).

Lemma records_length (df : DataFrame) (k v : nat) :
  length (records to_float df k v) = length (rows df).
Proof. unfold records. by rewrite length_fmap. Qed.

Lemma records_invalid (df : DataFrame) (k v : nat) :
  filter (λ r, r.2 = NaN) (records to_float df k v)
  = (λ row, (at_column k row, to_numeric to_float (at_column v row)))
    <$> filter (λ row, to_numeric to_float (at_column v row) = NaN)
          (rows df).
Proof.
  unfold records. induction (rows df) as [|row l IH]; [done|].
  rewrite fmap_cons, !filter_cons. simpl.
  case_decide; by rewrite IH.
Qed.

Lemma records_valid (df : DataFrame) (k v : nat) :
  filter (λ r, r.2 ≠ NaN) (records to_float df k v)
  = (λ row, (at_column k row, to_numeric to_float (at_column v row)))
    <$> filter (λ row, to_numeric to_float (at_column v row) ≠ NaN)
          (rows df).
Proof.
  unfold records. induction (rows df) as [|row l IH]; [done|].
  rewrite fmap_cons, !filter_cons. simpl.
  case_decide; by rewrite IH.
Qed.

Lemma required_columns_found (df : DataFrame) :
  has_required_columns df = true →
  ∃ v k, column_index df "Percentage Loss" = Some v
       ∧ column_index df "Measurement" = Some k.
Proof.
  unfold has_required_columns, required_columns. simpl.
  rewrite !andb_true_iff, !bool_decide_eq_true. intros (Hk & Hv & _).
  unfold column_index.
  destruct (list_find_elem_of (λ c, c = CStr "Percentage Loss")
              (columns df) _ Hv eq_refl) as [[v ?] ->].
  destruct (list_find_elem_of (λ c, c = CStr "Measurement")
              (columns df) _ Hk eq_refl) as [[k ?] ->].
  by exists v, k.
Qed.

Lemma aggregate_required (opts : Options) (df : DataFrame) :
  has_required_columns df = true →
  ∃ v k, column_index df "Percentage Loss" = Some v
       ∧ column_index df "Measurement" = Some k
       ∧ cleaned_table to_float df = dropna (records to_float df k v)
       ∧ aggregate to_float opts df
         = inr (clean_and_group opts (records to_float df k v)).
Proof.
  intros (v & k & Hv & Hk)%required_columns_found. exists v, k.
  unfold aggregate, cleaned_table. by rewrite Hv, Hk.
Qed.

Lemma aggregate_inr (opts : Options) (df : DataFrame) (p : Processed) :
  aggregate to_float opts df = inr p →
  ∃ recs, cleaned_table to_float df = dropna recs
        ∧ length recs = length (rows df)
        ∧ p = clean_and_group opts recs.
Proof.
  unfold aggregate, cleaned_table.
  destruct (column_index df "Percentage Loss") as [v|]; [|done].
  destruct (column_index df "Measurement") as [k|]; [|done].
  intros [= <-]. exists (records to_float df k v).
  by rewrite records_length.
Qed.




End CleaningFacts.

(** ** The header locator *)

Lemma read_csv_with_header_detection_found
    (pre post : list string) (h : string) :
  forallb (λ l, negb (is_header_line l)) pre = true →
  is_header_line h = true →
  read_csv_with_header_detection (pre ++ h :: post)
  = match table_below h post with
    | inl e => inl e
    | inr df => validate df
    end.
Proof.
  intros Hpre Hh. unfold read_csv_with_header_detection, find_header_row.
  rewrite scan_lines_found by done. simpl.
  by rewrite read_csv_at_header.
Qed.



(** C1 on the file of the specification: two lines of preamble, the
    header, three records. *)
Example header_locator_scenario :
  read_csv_with_header_detection
    ["junk"; "more junk"; "Time,Metric,Value,Measurement,Percentage Loss";
     "1,m,1,X,5"; "2,m,1,X,abc"; "3,m,1,Y,3"]
  = inr {| columns := [CStr "Time"; CStr "Metric"; CStr "Value";
                       CStr "Measurement"; CStr "Percentage Loss"];
           rows := [[CStr "1"; CStr "m"; CStr "1"; CStr "X"; CStr "5"];
                    [CStr "2"; CStr "m"; CStr "1"; CStr "X"; CStr "abc"];
                    [CStr "3"; CStr "m"; CStr "1"; CStr "Y"; CStr "3"]] |}.
Proof. reflexivity. Qed.

(** C10. The scan strips the line before the test: a line made of white
    space, the signature and any rest is stripped to the signature and the
    rest without its trailing white space, passes the test, and is the
    header row when no line before it passes. *)
Theorem header_scan_strips_whitespace
    (ws rest : string) (pre post : list string) :
  Text.all_space ws = true →
  forallb (λ l, negb (is_header_line l)) pre = true →
  Text.strip (ws +:+ header_signature +:+ rest)
  = header_signature +:+ Text.rstrip rest
  ∧ is_header_line (ws +:+ header_signature +:+ rest) = true
  ∧ find_header_row (pre ++ (ws +:+ header_signature +:+ rest) :: post)
    = Some (length pre).
Proof.
  intros Hws Hpre.
  assert (is_header_line (ws +:+ header_signature +:+ rest) = true) as Hh.
  { unfold is_header_line, Text.startswith.
    rewrite strip_signature by done. apply prefix_app. }
  split_and!; [by apply strip_signature|done|].
  unfold find_header_row. by rewrite scan_lines_found.
Qed.

Lemma header_scan_strips_whitespace_witness :
  Text.all_space (String "009" "  ") = true
  ∧ forallb (λ l, negb (is_header_line l)) ["junk"; " Time, Metric"] = true
  ∧ Text.strip (String "009" "  " +:+ header_signature
                +:+ ",Percentage Loss  ")
    = header_signature +:+ Text.rstrip ",Percentage Loss  "
  ∧ is_header_line (String "009" "  " +:+ header_signature
                    +:+ ",Percentage Loss  ") = true
  ∧ find_header_row
      (["junk"; " Time, Metric"]
       ++ (String "009" "  " +:+ header_signature +:+ ",Percentage Loss  ")
       :: ["1,m,1,X,5"])
    = Some (length ["junk"; " Time, Metric"]).
Proof.
  split; [reflexivity|]. split; [reflexivity|].
  apply (header_scan_strips_whitespace (String "009" "  ")
           ",Percentage Loss  " ["junk"; " Time, Metric"] ["1,m,1,X,5"]);
    reflexivity.
Defined.

(** ** The validation of the columns *)

Lemma filter_none {A} (P : A → Prop) `{!∀ x, Decision (P x)} (l : list A) :
  (∀ x, x ∈ l → ¬ P x) → filter P l = [].
Proof.
  induction l as [|x l IH]; intros Hl; [done|].
  rewrite filter_cons, decide_False by (apply Hl; by left).
  apply IH. intros y Hy. apply Hl. by right.
Qed.

Lemma missing_columns_nil (df : DataFrame) :
  missing_columns df = [] ↔ has_required_columns df = true.
Proof.
  unfold missing_columns, has_required_columns.
  rewrite forallb_forall. split.
  - intros Hnil col Hcol%list_elem_of_In. apply bool_decide_eq_true.
    destruct (decide (CStr col ∈ columns df)) as [|Hn]; [done|].
    assert (col ∈ filter (λ c, CStr c ∉ columns df) required_columns) as Hin
      by by apply list_elem_of_filter.
    rewrite Hnil in Hin. by apply elem_of_nil in Hin.
  - intros Hall. apply filter_none.
    intros col Hcol%list_elem_of_In Hn.
    apply Hn. by eapply bool_decide_eq_true_1, Hall.
Qed.

Lemma count_NoDup (names : list string) (s : string) :
  NoDup names → (length (filter (λ n, n = s) names) ≤ 1)%nat.
Proof.
  induction 1 as [|n names Hn Hnd IH]; [simpl; lia|].
  rewrite filter_cons. case_decide as Hs; [|lia]. subst. simpl.
  assert (filter (λ n, n = s) names = []) as ->; [|simpl; lia].
  apply filter_none. by intros x Hx ->.
Qed.

(** The sheet dialog is out of reach in a workbook whose sheets have
    distinct names: the test counts the occurrences of the name of the
    selected sheet, not the sheets with a header row. *)
Lemma sheet_dialog_unreachable (wb : Workbook) (askstring : option string) :
  NoDup wb.*1 →
  prompted (read_excel_with_header_detection wb askstring) = false.
Proof.
  intros Hnd. unfold read_excel_with_header_detection.
  destruct (search_sheets wb wb.*1) as [|[[[s idx] df]|]]; [done| |done].
  pose proof (count_NoDup wb.*1 s Hnd).
  by rewrite (proj2 (Nat.ltb_ge _ _)) by done.
Qed.

(** Once the dialog is opened, a cancelled dialog and a name that is not
    a sheet of the workbook end in the failure [InvalidSheetChoice]. *)
Lemma invalid_sheet_choice (wb : Workbook) (askstring : option string) :
  prompted (read_excel_with_header_detection wb askstring) = true →
  (∀ name, askstring = Some name → name ∈ wb.*1) ∨
  outcome (read_excel_with_header_detection wb askstring)
  = inl InvalidSheetChoice.
Proof.
  unfold read_excel_with_header_detection.
  destruct (search_sheets wb wb.*1) as [|[[[s idx] df]|]]; [done| |done].
  case_match; [|done]. destruct askstring as [name|]; [|by right].
  case_bool_decide; [left|by right]. by intros ? [= <-].
Qed.

(** C5, as the program has it.  When the frame read below the detected
    header lacks one or more of the required columns, the result is the
    failure [MissingColumns] with the list of all the required columns,
    ["Measurement"] and ["Percentage Loss"], whichever of them is
    missing: in the validation itself, in the CSV reader when the lines
    below the header are read without a parser error, and in the workbook
    reader (for a workbook whose sheets have distinct names). *)
Theorem missing_columns_reported (df : DataFrame) :
  missing_columns df ≠ [] →
  validate df = inl (MissingColumns ["Measurement"; "Percentage Loss"])
  ∧ (∀ pre h post,
       forallb (λ l, negb (is_header_line l)) pre = true →
       is_header_line h = true →
       table_below h post = inr df →
       read_csv_with_header_detection (pre ++ h :: post)
       = inl (MissingColumns ["Measurement"; "Percentage Loss"]))
  ∧ (∀ wb askstring sheet idx,
       NoDup wb.*1 →
       search_sheets wb wb.*1 = inr (Some (sheet, idx, df)) →
       read_excel_with_header_detection wb askstring
       = {| prompted := false;
            outcome :=
              inl (MissingColumns ["Measurement"; "Percentage Loss"]) |}).
Proof.
  intros Hmiss.
  assert (validate df = inl (MissingColumns ["Measurement"; "Percentage Loss"]))
    as Hval.
  { unfold validate. destruct (has_required_columns df) eqn:Hreq; [|done].
    by apply missing_columns_nil in Hreq. }
  split_and!; [done|..].
  - intros pre h post Hpre Hh Ht.
    by rewrite read_csv_with_header_detection_found, Ht.
  - intros wb ask sheet idx Hnd Hs. unfold read_excel_with_header_detection.
    rewrite Hs. pose proof (count_NoDup wb.*1 sheet Hnd).
    rewrite (proj2 (Nat.ltb_ge _ _)) by done. by rewrite Hval.
Qed.

Lemma missing_columns_reported_witness :
  missing_columns
    {| columns := [CStr "Time"; CStr "Metric"; CStr "Value";
                   CStr "Measurement ID"; CStr "Percentage Loss"];
       rows := [[CStr "1"; CStr "m"; CStr "1"; CStr "X"; CStr "5"]] |} ≠ []
  ∧ read_csv_with_header_detection
      (["junk"]
       ++ "Time,Metric,Value,Measurement ID,Percentage Loss"
       :: ["1,m,1,X,5"])
    = inl (MissingColumns ["Measurement"; "Percentage Loss"]).
Proof.
  split; [by vm_compute|].
  apply (missing_columns_reported
           {| columns := [CStr "Time"; CStr "Metric"; CStr "Value";
                          CStr "Measurement ID"; CStr "Percentage Loss"];
              rows := [[CStr "1"; CStr "m"; CStr "1"; CStr "X"; CStr "5"]] |});
    [by vm_compute|reflexivity..].
Defined.

(** C5, as the specification has it, fails: below a header that lacks
    only ["Measurement"], the failure lists both required columns, in the
    CSV reader and in the workbook reader. *)
Lemma missing_columns_not_exact :
  let f := ["Time,Metric,Value,Measurement ID,Percentage Loss"; "1,m,1,X,5"] in
  let wb : Workbook :=
    [("Sheet1", [[CStr "Time"; CStr "Percentage Loss"]; [CInt 1; CInt 5]])] in
  find_header_row f = Some 0
  ∧ (∃ df, Pandas.read_csv f 0 = inr df
           ∧ missing_columns df = ["Measurement"])
  ∧ read_csv_with_header_detection f
    = inl (MissingColumns ["Measurement"; "Percentage Loss"])
  ∧ read_csv_with_header_detection f ≠ inl (MissingColumns ["Measurement"])
  ∧ error_message "CSV" (MissingColumns ["Measurement"; "Percentage Loss"])
    = "CSV file must contain the following columns: Measurement, Percentage Loss"
  ∧ outcome (read_excel_with_header_detection wb None)
    = inl (MissingColumns ["Measurement"; "Percentage Loss"])
  ∧ outcome (read_excel_with_header_detection wb None)
    ≠ inl (MissingColumns ["Measurement"]).
Proof.
  split_and!; try reflexivity; try (by vm_compute).
  eexists. split; [reflexivity|]. by vm_compute.
Qed.

(** ** The choice of the sheet *)

(** C4 on a workbook with two sheets that both have a header row: the
    program reads the first of them and never opens the dialog, whatever
    would be entered in it. *)
Theorem two_header_sheets_no_prompt (askstring : option string) :
  let summary : Sheet :=
    [[CStr "Report"; CNaN; CNaN];
     [CStr "Time"; CStr "Measurement"; CStr "Percentage Loss"];
     [CInt 1; CStr "X"; CInt 5]] in
  let data : Sheet :=
    [[CStr "Time"; CStr "Measurement"; CStr "Percentage Loss"];
     [CInt 2; CStr "Y"; CInt 7]] in
  let wb : Workbook := [("Summary", summary); ("Data", data)] in
  has_header_row summary ∧ has_header_row data
  ∧ scan_rows 0 summary = inr (Some 1) ∧ scan_rows 0 data = inr (Some 0)
  ∧ read_excel_with_header_detection wb askstring
    = {| prompted := false;
         outcome :=
           inr {| columns := [CStr "Time"; CStr "Measurement";
                              CStr "Percentage Loss"];
                  rows := [[CInt 1; CStr "X"; CInt 5]] |} |}.
Proof.
  simpl. split_and!; try reflexivity.
  - exists "Time", [CStr "Measurement"; CStr "Percentage Loss"].
    split; [|reflexivity]. apply list_elem_of_In. simpl. auto.
  - exists "Time", [CStr "Measurement"; CStr "Percentage Loss"].
    split; [|reflexivity]. apply list_elem_of_In. simpl. auto.
Qed.

(** ** The cleaning step *)

Lemma clean_and_group_dropped (opts : Options) (recs : list (cell * float)) :
  dropped_rows (clean_and_group opts recs)
  = length (filter (λ r, r.2 = NaN) recs).
Proof. simpl. pose proof (dropna_length recs). lia. Qed.

Lemma clean_and_group_warning (opts : Options) (recs : list (cell * float)) :
  warning (clean_and_group opts recs)
  = if decide (dropped_rows (clean_and_group opts recs) = 0) then None
    else Some (dropped_rows (clean_and_group opts recs)).
Proof.
  simpl. destruct (length recs - length (dropna recs)) as [|n]; by simpl.
Qed.

Lemma clean_and_group_valid (opts : Options) (recs : list (cell * float)) :
  clean_and_group opts (filter (λ r, r.2 ≠ NaN) recs)
  = {| dropped_rows := 0;
       warning := None;
       grouped_data := grouped_data (clean_and_group opts recs);
       overall_min_avg := overall_min_avg (clean_and_group opts recs);
       overall_max_avg := overall_max_avg (clean_and_group opts recs) |}.
Proof.
  unfold clean_and_group.
  rewrite dropna_filter_valid.
  pose proof (dropna_valid_length recs) as Hlen.
  rewrite dropna_filter_valid in Hlen. rewrite <-Hlen, Nat.sub_diag.
  reflexivity.
Qed.

(** C2. Cleaning.  On a frame with the required columns the run does not
    fail.  Its drop count is the number of rows whose value is not a
    number, each counted once, so that the rows are the cleaned rows plus
    the dropped ones; the warning is shown with that count exactly when it
    is not zero; and the summary and the overall averages are those of the
    frame without these rows, on which nothing is dropped and no warning
    is shown.  The run of [process_data] on a file read as this frame is
    this successful run. *)
Theorem invalid_rows_dropped_and_counted
    (to_float : string → option Qc) (opts : Options) (df : DataFrame) :
  has_required_columns df = true →
  ∃ p p',
    aggregate to_float opts df = inr p
    ∧ dropped_rows p = length (invalid_rows to_float df)
    ∧ length (rows df)
      = length (cleaned_table to_float df) + dropped_rows p
    ∧ warning p
      = (if decide (dropped_rows p = 0) then None else Some (dropped_rows p))
    ∧ aggregate to_float opts (valid_part to_float df) = inr p'
    ∧ dropped_rows p' = 0
    ∧ warning p' = None
    ∧ grouped_data p' = grouped_data p
    ∧ overall_min_avg p' = overall_min_avg p
    ∧ overall_max_avg p' = overall_max_avg p
    ∧ (∀ f askstring,
         read_csv_with_header_detection f = inr df →
         process_data to_float opts (CsvFile f) askstring = inr p)
    ∧ (∀ wb askstring,
         outcome (read_excel_with_header_detection wb askstring) = inr df →
         process_data to_float opts (ExcelFile wb) askstring = inr p).
Proof.
  intros Hreq.
  destruct (aggregate_required to_float opts df Hreq)
    as (v & k & Hv & Hk & Hclean & Hagg).
  exists (clean_and_group opts (records to_float df k v)),
    (clean_and_group opts
       (filter (λ r, r.2 ≠ NaN) (records to_float df k v))).
  split_and!.
  - done.
  - rewrite clean_and_group_dropped. unfold invalid_rows. rewrite Hv.
    by rewrite records_invalid, length_fmap.
  - rewrite clean_and_group_dropped, Hclean, dropna_length.
    by rewrite records_length.
  - apply clean_and_group_warning.
  - unfold aggregate, valid_part. rewrite Hv. simpl.
    change (column_index
              {| columns := columns df;
                 rows := filter (λ row, to_numeric to_float (at_column v row)
                                        ≠ NaN) (rows df) |})
      with (column_index df).
    rewrite Hv, Hk. do 2 f_equal.
    by rewrite records_valid.
  - by rewrite clean_and_group_valid.
  - by rewrite clean_and_group_valid.
  - by rewrite clean_and_group_valid.
  - by rewrite clean_and_group_valid.
  - by rewrite clean_and_group_valid.
  - intros f ask Hf. simpl. by rewrite Hf.
  - intros wb ask Hwb. simpl. by rewrite Hwb.
Qed.

Lemma invalid_rows_dropped_and_counted_witness :
  let df :=
    {| columns := [CStr "Time"; CStr "Metric"; CStr "Value";
                   CStr "Measurement"; CStr "Percentage Loss"];
       rows := [[CStr "1"; CStr "m"; CStr "1"; CStr "X"; CStr "5"];
                [CStr "2"; CStr "m"; CStr "1"; CStr "X"; CStr "abc"];
                [CStr "3"; CStr "m"; CStr "1"; CStr "Y"; CStr "3"]] |} in
  has_required_columns df = true
  ∧ ∃ p p',
      aggregate Decimal.decimal (mkOptions true true) df = inr p
      ∧ dropped_rows p = length (invalid_rows Decimal.decimal df)
      ∧ length (rows df)
        = length (cleaned_table Decimal.decimal df) + dropped_rows p
      ∧ warning p
        = (if decide (dropped_rows p = 0) then None
           else Some (dropped_rows p))
      ∧ aggregate Decimal.decimal (mkOptions true true)
          (valid_part Decimal.decimal df) = inr p'
      ∧ dropped_rows p' = 0
      ∧ warning p' = None
      ∧ grouped_data p' = grouped_data p
      ∧ overall_min_avg p' = overall_min_avg p
      ∧ overall_max_avg p' = overall_max_avg p
      ∧ (∀ f askstring,
           read_csv_with_header_detection f = inr df →
           process_data Decimal.decimal (mkOptions true true) (CsvFile f)
             askstring = inr p)
      ∧ (∀ wb askstring,
           outcome (read_excel_with_header_detection wb askstring) = inr df →
           process_data Decimal.decimal (mkOptions true true) (ExcelFile wb)
             askstring = inr p).
Proof.
  split; [reflexivity|].
  apply (invalid_rows_dropped_and_counted Decimal.decimal
           (mkOptions true true)). reflexivity.
Defined.

(** C2 on the file of the specification: the row with [abc] is dropped
    and counted once, the groups are those of the other two rows. *)
Example cleaning_scenario :
  process_data Decimal.decimal (mkOptions false false)
    (CsvFile ["junk"; "more junk";
              "Time,Metric,Value,Measurement,Percentage Loss";
              "1,m,1,X,5"; "2,m,1,X,abc"; "3,m,1,Y,3"]) None
  = inr {| dropped_rows := 1;
           warning := Some 1;
           grouped_data :=
             [mkGroupSummary (CStr "X") (Qc_of_Z 5) (Qc_of_Z 5) None;
              mkGroupSummary (CStr "Y") (Qc_of_Z 3) (Qc_of_Z 3) None];
           overall_min_avg := None;
           overall_max_avg := None |}.
Proof. compute_done. Qed.

(** ** An empty cleaned table *)

Lemma clean_and_group_empty (opts : Options) (recs : list (cell * float)) :
  dropna recs = [] →
  clean_and_group opts recs
  = {| dropped_rows := length recs;
       warning := if decide (length recs = 0) then None
                  else Some (length recs);
       grouped_data := [];
       overall_min_avg :=
         if include_overall_average opts then Some NaN else None;
       overall_max_avg :=
         if include_overall_average opts then Some NaN else None |}.
Proof.
  intros Hnil. unfold clean_and_group. rewrite Hnil. simpl.
  rewrite Nat.sub_0_r.
  destruct (include_average opts), (include_overall_average opts),
    (length recs); reflexivity.
Qed.

(** C3, as the program has it.  When the cleaned table is empty (no data
    row, or no row with a number as its value) the run does not fail: it
    ends with an empty summary, a drop count equal to the number of rows,
    the warning when that count is not zero and, when the overall
    averages are requested, [NaN] for both. *)
Theorem empty_cleaned_table_gives_empty_summary
    (to_float : string → option Qc) (opts : Options) (df : DataFrame) :
  has_required_columns df = true →
  cleaned_table to_float df = [] →
  aggregate to_float opts df
  = inr {| dropped_rows := length (rows df);
           warning := if decide (length (rows df) = 0) then None
                      else Some (length (rows df));
           grouped_data := [];
           overall_min_avg :=
             if include_overall_average opts then Some NaN else None;
           overall_max_avg :=
             if include_overall_average opts then Some NaN else None |}.
Proof.
  intros Hreq Hnil.
  destruct (aggregate_required to_float opts df Hreq)
    as (v & k & Hv & Hk & Hclean & ->).
  rewrite Hclean in Hnil.
  by rewrite clean_and_group_empty, records_length.
Qed.

Lemma empty_cleaned_table_gives_empty_summary_witness :
  let df :=
    {| columns := [CStr "Time"; CStr "Metric"; CStr "Value";
                   CStr "Measurement"; CStr "Percentage Loss"];
       rows := [[CStr "1"; CStr "m"; CStr "1"; CStr "X"; CStr "abc"];
                [CStr "2"; CStr "m"; CStr "1"; CStr "Y"; CNaN]] |} in
  has_required_columns df = true
  ∧ cleaned_table Decimal.decimal df = []
  ∧ aggregate Decimal.decimal (mkOptions true true) df
    = inr {| dropped_rows := 2; warning := Some 2; grouped_data := [];
             overall_min_avg := Some NaN; overall_max_avg := Some NaN |}.
Proof.
  split; [reflexivity|]. split; [reflexivity|].
  apply (empty_cleaned_table_gives_empty_summary Decimal.decimal
           (mkOptions true true)); reflexivity.
Defined.

(** C3, as the specification has it, fails: a file whose only data row
    has no number as its value, and a file with no data row at all, are
    processed without a failure and leave an empty summary. *)
Lemma empty_cleaned_table_is_no_failure :
  let header := "Time,Metric,Value,Measurement,Percentage Loss" in
  (∃ df, read_csv_with_header_detection [header; "1,m,1,X,abc"] = inr df
         ∧ cleaned_table Decimal.decimal df = [])
  ∧ process_data Decimal.decimal (mkOptions false false)
      (CsvFile [header; "1,m,1,X,abc"]) None
    = inr {| dropped_rows := 1; warning := Some 1; grouped_data := [];
             overall_min_avg := None; overall_max_avg := None |}
  ∧ (∃ df, read_csv_with_header_detection [header] = inr df
           ∧ cleaned_table Decimal.decimal df = [])
  ∧ process_data Decimal.decimal (mkOptions false false)
      (CsvFile [header]) None
    = inr {| dropped_rows := 0; warning := None; grouped_data := [];
             overall_min_avg := None; overall_max_avg := None |}
  ∧ ∀ e, process_data Decimal.decimal (mkOptions false false)
           (CsvFile [header; "1,m,1,X,abc"]) None ≠ inl e.
Proof.
  split_and!; try reflexivity.
  - eexists. split; reflexivity.
  - eexists. split; reflexivity.
  - intros e. by vm_compute.
Qed.

(** ** The rows of the summary *)

Lemma elem_of_grouped_data (opts : Options) (recs : list (cell * float))
    (g : GroupSummary) :
  g ∈ grouped_data (clean_and_group opts recs) ↔
    ∃ g0, g0 ∈ groupby_agg (dropna recs)
          ∧ g = if include_average opts then with_average g0 else g0.
Proof.
  simpl. destruct (include_average opts).
  - rewrite list_elem_of_fmap. naive_solver.
  - naive_solver.
Qed.

Lemma grouped_data_keys (opts : Options) (recs : list (cell * float)) :
  Measurement <$> grouped_data (clean_and_group opts recs)
  = group_keys (dropna recs).
Proof.
  simpl. destruct (include_average opts); [|apply groupby_agg_keys].
  rewrite <-list_fmap_compose. apply groupby_agg_keys.
Qed.



(** ** Arithmetic of the averages *)





Lemma Qc_of_nat_S (n : nat) : Qc_of_nat (S n) ≠ 0%Qc.
Proof.
  intros H. apply (f_equal this) in H. simpl in H.
  unfold inject_Z in H. injection H. lia.
Qed.

(** The mean is the sum divided by the count. *)
Lemma mean_spec (vs : list Qc) (m : Qc) :
  Series.mean vs = Num m →
  (m * Qc_of_nat (length vs) = Series.sum vs)%Qc.
Proof.
  destruct vs as [|v vs]; [done|]. intros [= <-].
  unfold Qcdiv. rewrite <-Qcmult_assoc, (Qcmult_comm (/ _)).
  rewrite Qcmult_inv_r by apply Qc_of_nat_S. apply Qcmult_1_r.
Qed.

Lemma mean_nonempty (vs : list Qc) :
  vs ≠ [] → ∃ m, Series.mean vs = Num m.
Proof. destruct vs; [done|]. by eexists. Qed.


(** ** The averages and the order of the summary *)

Lemma grouped_row_spec (to_float : string → option Qc) (opts : Options)
    (df : DataFrame) (p : Processed) (g : GroupSummary) :
  aggregate to_float opts df = inr p →
  g ∈ grouped_data p →
  Measurement g ∈ group_keys (cleaned_table to_float df)
  ∧ is_min (group_values (Measurement g) (cleaned_table to_float df))
      (Min_Loss g)
  ∧ is_max (group_values (Measurement g) (cleaned_table to_float df))
      (Max_Loss g)
  ∧ Average g
    = if include_average opts
      then Some ((Min_Loss g + Max_Loss g) / 2)%Qc else None.
Proof.
  intros (recs & -> & _ & ->)%aggregate_inr.
  intros (g0 & (Hk & Hlo & Hhi & Havg)%elem_of_groupby_agg & ->)
           %elem_of_grouped_data.
  by destruct (include_average opts).
Qed.



(** The average of C6 is not the mean of the rows: for the values 0, 0 and
    10 it is 5, and their mean is 10/3. *)
Example average_is_not_row_mean :
  let df :=
    {| columns := [CStr "Measurement"; CStr "Percentage Loss"];
       rows := [[CStr "X"; CStr "0"]; [CStr "X"; CStr "0"];
                [CStr "X"; CStr "10"]] |} in
  aggregate Decimal.decimal (mkOptions true false) df
  = inr {| dropped_rows := 0; warning := None;
           grouped_data :=
             [mkGroupSummary (CStr "X") (Qc_of_Z 0) (Qc_of_Z 10)
                (Some (Qc_of_Z 5))];
           overall_min_avg := None; overall_max_avg := None |}
  ∧ Series.mean (group_values (CStr "X") (cleaned_table Decimal.decimal df))
    = Num (Q2Qc (10 # 3)).
Proof. split; compute_done. Qed.



(** C7. Overall averages.  With [include_overall_average] set, the two
    overall averages are the means of the column of minima and of the
    column of maxima of the summary, one term per group: for a summary
    that is not empty, each times the number of groups is the sum of the
    column.  On the groups A (0 and 10) and B (4 and 6), read from six
    rows whose values have the mean 6, they are 2 and 8. *)
Theorem overall_averages_over_groups :
  (∀ (to_float : string → option Qc) (opts : Options) (df : DataFrame)
     (p : Processed),
     include_overall_average opts = true →
     aggregate to_float opts df = inr p →
     overall_min_avg p = Some (Series.mean (Min_Loss <$> grouped_data p))
     ∧ overall_max_avg p = Some (Series.mean (Max_Loss <$> grouped_data p))
     ∧ (grouped_data p ≠ [] →
        ∃ lo hi,
          overall_min_avg p = Some (Num lo)
          ∧ overall_max_avg p = Some (Num hi)
          ∧ (lo * Qc_of_nat (length (grouped_data p))
             = Series.sum (Min_Loss <$> grouped_data p))%Qc
          ∧ (hi * Qc_of_nat (length (grouped_data p))
             = Series.sum (Max_Loss <$> grouped_data p))%Qc))
  ∧ (let df :=
       {| columns := [CStr "Measurement"; CStr "Percentage Loss"];
          rows := [[CStr "A"; CStr "0"]; [CStr "B"; CStr "6"];
                   [CStr "A"; CStr "10"]; [CStr "B"; CStr "4"];
                   [CStr "A"; CStr "10"]; [CStr "B"; CStr "6"]] |} in
     aggregate Decimal.decimal (mkOptions false true) df
     = inr {| dropped_rows := 0; warning := None;
              grouped_data :=
                [mkGroupSummary (CStr "A") (Qc_of_Z 0) (Qc_of_Z 10) None;
                 mkGroupSummary (CStr "B") (Qc_of_Z 4) (Qc_of_Z 6) None];
              overall_min_avg := Some (Num (Qc_of_Z 2));
              overall_max_avg := Some (Num (Qc_of_Z 8)) |}
     ∧ Series.mean (cleaned_table Decimal.decimal df).*2
       = Num (Qc_of_Z 6)).
Proof.
  split; [|split; compute_done].
  intros to_float opts df p Hopt (recs & _ & _ & ->)%aggregate_inr.
  assert (overall_min_avg (clean_and_group opts recs)
          = Some (Series.mean
                    (Min_Loss <$> grouped_data (clean_and_group opts recs))))
    as Hmin by (simpl; by rewrite Hopt).
  assert (overall_max_avg (clean_and_group opts recs)
          = Some (Series.mean
                    (Max_Loss <$> grouped_data (clean_and_group opts recs))))
    as Hmax by (simpl; by rewrite Hopt).
  split_and!; [done..|].
  intros Hne. set (gs := grouped_data (clean_and_group opts recs)) in *.
  destruct (mean_nonempty (Min_Loss <$> gs)) as [lo Hlo];
    [by destruct gs|].
  destruct (mean_nonempty (Max_Loss <$> gs)) as [hi Hhi];
    [by destruct gs|].
  exists lo, hi. rewrite Hmin, Hmax, Hlo, Hhi. split_and!; try done.
  - apply mean_spec in Hlo. by rewrite length_fmap in Hlo.
  - apply mean_spec in Hhi. by rewrite length_fmap in Hhi.
Qed.



(** C8 on a file: the labels come out as B, a10, a9, b, the order of
    their code points, for both orders of the rows. *)
Example summary_order_scenario :
  let header := "Time,Metric,Value,Measurement,Percentage Loss" in
  (Measurement <$>
     match process_data Decimal.decimal (mkOptions false false)
             (CsvFile [header; "1,m,1,b,1"; "2,m,1,B,2"; "3,m,1,a10,3";
                       "4,m,1,a9,4"; "5,m,1,b,5"]) None with
     | inr p => grouped_data p
     | inl _ => []
     end)
  = [CStr "B"; CStr "a10"; CStr "a9"; CStr "b"]
  ∧ process_data Decimal.decimal (mkOptions false false)
      (CsvFile [header; "4,m,1,a9,4"; "5,m,1,b,5"; "1,m,1,b,1";
                "3,m,1,a10,3"; "2,m,1,B,2"]) None
    = process_data Decimal.decimal (mkOptions false false)
        (CsvFile [header; "1,m,1,b,1"; "2,m,1,B,2"; "3,m,1,a10,3";
                  "4,m,1,a9,4"; "5,m,1,b,5"]) None.
Proof. split; compute_done. Qed.

(** * Further properties of the programs *)

(** ** The outcomes of the CSV reader *)


(** ** The two programs on a CSV file *)

Lemma aggregate_missing (to_float : string → option Qc) (opts : Options)
    (df : DataFrame) :
  has_required_columns df = false →
  aggregate to_float opts df = inl ProcessingError.
Proof.
  intros Hreq. unfold aggregate, column_index.
  destruct (list_find _ (columns df)) as [[v c]|] eqn:Hv; [|done].
  destruct (list_find (λ c, c = CStr "Measurement") (columns df))
    as [[k c']|] eqn:Hk; [|done].
  apply list_find_Some in Hv as (Hv & -> & _).
  apply list_find_Some in Hk as (Hk & -> & _).
  apply list_elem_of_lookup_2 in Hv, Hk.
  unfold has_required_columns, required_columns in Hreq. simpl in Hreq.
  by rewrite !bool_decide_eq_true_2 in Hreq.
Qed.

(** The older program and [1.0.7.py] with both averages off give the same
    summary, drop count and warning on every CSV file that either of them
    processes; on the other files both fail, the older program with the
    dialog of its handler wherever the newer one names a parser error or
    the required columns, and with the same dialog when the header is not
    found. *)
Theorem legacy_agrees (to_float : string → option Qc) (f : list string)
    (askstring : option string) :
  Legacy.process_data to_float (Some f)
  = match process_data to_float (mkOptions false false) (CsvFile f)
            askstring with
    | inr p => inr p
    | inl HeaderNotFound => inl HeaderNotFound
    | inl _ => inl ProcessingError
    end.
Proof.
  unfold Legacy.process_data, process_data, read_csv_with_header_detection.
  destruct (find_header_row f) as [header_row|]; [|done].
  destruct (Pandas.read_csv f header_row) as [[]|df] eqn:Hread; try done.
  - exfalso. unfold Pandas.read_csv, Pandas.parse_table in Hread.
    repeat case_match; done.
  - unfold validate. destruct (has_required_columns df) eqn:Hreq.
    + destruct (aggregate_required to_float (mkOptions false false) df Hreq)
        as (v & k & _ & _ & _ & ->). done.
    + by rewrite aggregate_missing.
Qed.

(** ** The search for the header in a workbook *)

Lemma scan_rows_found (pre post : Sheet) (h : list cell) (idx : nat) :
  plain_rows pre = true →
  is_header_row h = true →
  scan_rows idx (pre ++ h :: post) = inr (Some (idx + length pre)).
Proof.
  revert idx. induction pre as [|row pre IH]; intros idx Hpre Hh.
  - simpl. destruct h as [|[s| |] h]; try done. simpl in Hh.
    rewrite Hh. do 2 f_equal. lia.
  - simpl in Hpre. apply andb_true_iff in Hpre as [Hrow Hpre].
    change ((row :: pre) ++ h :: post) with (row :: (pre ++ h :: post)).
    destruct row as [|[s| |] row]; try done; simpl;
      [simpl in Hrow; apply negb_true_iff in Hrow; rewrite Hrow|..];
      rewrite IH by done; do 2 f_equal; lia.
Qed.

Lemma scan_rows_plain (temp_df : Sheet) (idx : nat) :
  plain_rows temp_df = true → scan_rows idx temp_df = inr None.
Proof.
  revert idx. induction temp_df as [|row temp_df IH]; intros idx Hp; [done|].
  simpl in Hp. apply andb_true_iff in Hp as [Hrow Hp].
  destruct row as [|[s| |] row]; try done; simpl;
    [simpl in Hrow; apply negb_true_iff in Hrow; rewrite Hrow|..]; auto.
Qed.

Lemma read_sheet_elem_of (wb : Workbook) (sheet : string) :
  sheet ∈ wb.*1 →
  ∃ temp_df, Excel.read_sheet wb sheet = Some temp_df
             ∧ (sheet, temp_df) ∈ wb.
Proof.
  intros ([n sh] & -> & Hin)%list_elem_of_fmap. unfold Excel.read_sheet.
  simpl.
  destruct (list_find_elem_of (λ p, p.1 = n) wb (n, sh) Hin eq_refl)
    as [[i [n' sh']] Hfind].
  rewrite Hfind. apply list_find_Some in Hfind as (Hi & Hn & _).
  simpl in Hn. subst n'. exists sh'. split; [done|].
  by eapply list_elem_of_lookup_2.
Qed.

Lemma read_sheet_middle (wb1 wb2 : Workbook) (sheet : string)
    (temp_df : Sheet) :
  sheet ∉ wb1.*1 →
  Excel.read_sheet (wb1 ++ (sheet, temp_df) :: wb2) sheet = Some temp_df.
Proof.
  intros Hnotin. unfold Excel.read_sheet.
  rewrite list_find_app_r.
  - simpl. by rewrite decide_True.
  - apply list_find_None, Forall_forall. intros [n sh] Hin Hn.
    simpl in Hn. subst n. apply Hnotin, list_elem_of_fmap. by exists (sheet, sh).
Qed.

Lemma search_sheets_skip (wb : Workbook) (names rest : list string) :
  (∀ n temp_df, n ∈ names → Excel.read_sheet wb n = Some temp_df →
                plain_rows temp_df = true) →
  (∀ n, n ∈ names → n ∈ wb.*1) →
  search_sheets wb (names ++ rest) = search_sheets wb rest.
Proof.
  induction names as [|n names IH]; intros Hplain Hin; [done|]. simpl.
  destruct (read_sheet_elem_of wb n) as (sh & Hsh & _);
    [apply Hin; by left|].
  rewrite Hsh, (scan_rows_plain sh 0) by (eapply Hplain; [by left|done]).
  apply IH.
  - intros n' sh' Hn'. apply Hplain. by right.
  - intros n' Hn'. apply Hin. by right.
Qed.

Lemma plain_sheets_read (wb wb1 : Workbook) (n : string) (temp_df : Sheet) :
  forallb (λ s, plain_rows s.2) wb1 = true →
  (∀ p, p ∈ wb → p.1 = n → p ∈ wb1) →
  Excel.read_sheet wb n = Some temp_df →
  plain_rows temp_df = true.
Proof.
  intros Hplain Hsub. unfold Excel.read_sheet.
  destruct (list_find _ wb) as [[i [n' sh]]|] eqn:Hfind; [|done].
  intros [= <-]. apply list_find_Some in Hfind as (Hi & Hn & _).
  rewrite forallb_forall in Hplain.
  apply (Hplain (n', sh)), list_elem_of_In, Hsub; [|done].
  by eapply list_elem_of_lookup_2.
Qed.

(** In a workbook whose sheets have distinct names the first sheet, in
    the order of the workbook, with a row whose first cell is a text that
    starts with ["Time"] is read, at the first such row: the cells of that
    row are the labels and the rows below it are the data; the rows above
    it and the sheets after it are not looked at, the dialog is not
    opened, and the frame goes through the validation of the columns.
    The test is on the cell as it is: it is not stripped. *)
Theorem excel_first_header_wins (wb1 wb2 : Workbook) (sheet : string)
    (pre post : Sheet) (h : list cell) (askstring : option string) :
  NoDup (wb1 ++ (sheet, pre ++ h :: post) :: wb2).*1 →
  forallb (λ s, plain_rows s.2) wb1 = true →
  plain_rows pre = true →
  is_header_row h = true →
  read_excel_with_header_detection
    (wb1 ++ (sheet, pre ++ h :: post) :: wb2) askstring
  = {| prompted := false;
       outcome := validate {| columns := h; rows := post |} |}.
Proof.
  intros Hnd Hwb1 Hpre Hh.
  set (wb := wb1 ++ (sheet, pre ++ h :: post) :: wb2) in *.
  assert (sheet ∉ wb1.*1) as Hnotin.
  { unfold wb in Hnd. rewrite fmap_app, fmap_cons in Hnd.
    apply NoDup_app in Hnd as (_ & Hdisj & _).
    intros Hin. apply (Hdisj _ Hin). by left. }
  assert (Excel.read_sheet wb sheet = Some (pre ++ h :: post)) as Hread
    by by apply read_sheet_middle.
  assert (search_sheets wb wb.*1
          = inr (Some (sheet, length pre, {| columns := h; rows := post |})))
    as Hsearch.
  { unfold wb at 2. rewrite fmap_app, fmap_cons.
    rewrite search_sheets_skip.
    - simpl. rewrite Hread, scan_rows_found by done. simpl.
      unfold Excel.read_excel. by rewrite Hread, drop_app_length.
    - intros n sh Hn. apply (plain_sheets_read wb wb1); [done|].
      intros [n' sh'] Hin' Hn'. simpl in Hn'. subst n'.
      unfold wb in Hin'. apply elem_of_app in Hin' as [?|Hin']; [done|].
      exfalso. unfold wb in Hnd. rewrite fmap_app in Hnd.
      apply NoDup_app in Hnd as (_ & Hdisj & _).
      apply (Hdisj _ Hn). apply list_elem_of_fmap. by exists (n, sh').
    - intros n Hn. unfold wb. rewrite fmap_app. apply elem_of_app. by left. }
  unfold read_excel_with_header_detection. rewrite Hsearch.
  pose proof (count_NoDup wb.*1 sheet Hnd).
  by rewrite (proj2 (Nat.ltb_ge _ _)) by done.
Qed.

Lemma excel_first_header_wins_witness :
  let wb1 : Workbook := [("Notes", [[CStr " Time"; CNaN]; [CInt 3; CNaN]])] in
  let pre : Sheet := [[CStr "Export"; CNaN; CNaN]; [CNaN; CNaN; CNaN]] in
  let h := [CStr "Timestamp"; CStr "Measurement"; CStr "Percentage Loss"] in
  let post : Sheet := [[CInt 1; CStr "X"; CInt 5]] in
  let wb2 : Workbook :=
    [("Later", [[CStr "Time"; CStr "Measurement"; CStr "Percentage Loss"]])] in
  NoDup (wb1 ++ ("Data", pre ++ h :: post) :: wb2).*1
  ∧ forallb (λ s, plain_rows s.2) wb1 = true
  ∧ plain_rows pre = true
  ∧ is_header_row h = true
  ∧ read_excel_with_header_detection
      (wb1 ++ ("Data", pre ++ h :: post) :: wb2) None
    = {| prompted := false;
         outcome := validate {| columns := h; rows := post |} |}.
Proof.
  intros wb1 pre h post wb2.
  assert (NoDup (wb1 ++ ("Data", pre ++ h :: post) :: wb2).*1) as Hnd
    by compute_done.
  split; [exact Hnd|]. split; [reflexivity|]. split; [reflexivity|].
  split; [reflexivity|].
  apply (excel_first_header_wins wb1 wb2 "Data" pre post h None);
    [exact Hnd|reflexivity..].
Defined.

(** A workbook in which no sheet has a row whose first cell is a text
    that starts with ["Time"] is refused with [HeaderNotFound], without a
    dialog; a first cell with white space before ["Time"] does not count. *)
Theorem excel_header_not_found (wb : Workbook) (askstring : option string) :
  forallb (λ s, plain_rows s.2) wb = true →
  read_excel_with_header_detection wb askstring
  = {| prompted := false; outcome := inl HeaderNotFound |}.
Proof.
  intros Hplain. unfold read_excel_with_header_detection.
  rewrite <-(app_nil_r wb.*1), search_sheets_skip; [done| |done].
  intros n sh _. by apply (plain_sheets_read wb wb).
Qed.

Lemma excel_header_not_found_witness :
  let wb : Workbook :=
    [("Notes", [[CStr " Time"; CStr "Measurement"; CStr "Percentage Loss"];
                [CInt 3; CStr "X"; CInt 5]]);
     ("Empty", [])] in
  forallb (λ s, plain_rows s.2) wb = true
  ∧ read_excel_with_header_detection wb None
    = {| prompted := false; outcome := inl HeaderNotFound |}.
Proof.
  intros wb. split; [reflexivity|].
  apply (excel_header_not_found wb None). reflexivity.
Defined.

(** ** What the summary holds *)

Lemma is_min_unique (vs : list Qc) (m m' : Qc) :
  is_min vs m → is_min vs m' → m = m'.
Proof. intros [? Hm] [? Hm']. apply Qcle_antisym; auto. Qed.

Lemma is_max_unique (vs : list Qc) (m m' : Qc) :
  is_max vs m → is_max vs m' → m = m'.
Proof. intros [? Hm] [? Hm']. apply Qcle_antisym; auto. Qed.

(** Every row of the cleaned table that has a label is in exactly one row
    of the summary, the one with its label, and its value lies between the
    minimum and the maximum of that row.  No row of the summary has a
    missing label: the cleaned rows without a label are in no group (and
    they are not in the drop count, which counts the values that are not
    numbers).  The summary has at most as many rows as the cleaned
    table. *)
Theorem summary_covers_labelled_rows (to_float : string → option Qc)
    (opts : Options) (df : DataFrame) (p : Processed) :
  aggregate to_float opts df = inr p →
  (∀ k v, (k, v) ∈ cleaned_table to_float df → k ≠ CNaN →
     ∃ g, g ∈ grouped_data p
          ∧ Measurement g = k
          ∧ (Min_Loss g ≤ v ∧ v ≤ Max_Loss g)%Qc
          ∧ ∀ g', g' ∈ grouped_data p → Measurement g' = k → g' = g)
  ∧ (∀ g, g ∈ grouped_data p → Measurement g ≠ CNaN)
  ∧ (length (grouped_data p) ≤ length (cleaned_table to_float df))%nat.
Proof.
  intros Hagg.
  pose proof (grouped_row_spec to_float opts df p) as Hspec.
  destruct (aggregate_inr to_float opts df p Hagg) as (recs & Hclean & _ & ->).
  rewrite Hclean in *. split_and!.
  - intros k v Hin Hk.
    assert (k ∈ group_keys (dropna recs)) as Hkey.
    { apply elem_of_group_keys. split; [by destruct k|].
      apply list_elem_of_fmap. by exists (k, v). }
    rewrite <-(grouped_data_keys opts) in Hkey.
    apply list_elem_of_fmap in Hkey as (g & -> & Hg).
    destruct (Hspec g Hagg Hg) as (_ & Hlo & Hhi & Havg).
    exists g. split_and!; [done|done| | |].
    + apply Hlo. by apply elem_of_group_values.
    + apply Hhi. by apply elem_of_group_values.
    + intros g' Hg' Hk'.
      destruct (Hspec g' Hagg Hg') as (_ & Hlo' & Hhi' & Havg').
      rewrite Hk' in Hlo', Hhi'.
      pose proof (is_min_unique _ _ _ Hlo' Hlo) as Hmin.
      pose proof (is_max_unique _ _ _ Hhi' Hhi) as Hmax.
      destruct g, g'; simpl in *. subst. done.
  - intros g Hg Hnan. destruct (Hspec g Hagg Hg) as (Hkey & _).
    apply elem_of_group_keys in Hkey as [Hkey _]. by rewrite Hnan in Hkey.
  - rewrite <-(length_fmap Measurement), grouped_data_keys.
    rewrite <-(length_fmap fst (dropna recs)).
    apply submseteq_length, NoDup_submseteq; [apply group_keys_NoDup|].
    by intros k [_ Hk]%elem_of_group_keys.
Qed.

Lemma summary_covers_labelled_rows_witness :
  let df :=
    {| columns := [CStr "Measurement"; CStr "Percentage Loss"];
       rows := [[CStr "X"; CStr "2.5"]; [CNaN; CStr "7.5"];
                [CStr "X"; CStr "abc"]; [CStr "X"; CStr "10"]] |} in
  let p := clean_and_group (mkOptions true true)
             (records Decimal.decimal df 0 1) in
  aggregate Decimal.decimal (mkOptions true true) df = inr p
  ∧ (∀ k v, (k, v) ∈ cleaned_table Decimal.decimal df → k ≠ CNaN →
       ∃ g, g ∈ grouped_data p
            ∧ Measurement g = k
            ∧ (Min_Loss g ≤ v ∧ v ≤ Max_Loss g)%Qc
            ∧ ∀ g', g' ∈ grouped_data p → Measurement g' = k → g' = g)
  ∧ (∀ g, g ∈ grouped_data p → Measurement g ≠ CNaN)
  ∧ (length (grouped_data p)
     ≤ length (cleaned_table Decimal.decimal df))%nat.
Proof.
  intros df p. split; [reflexivity|].
  apply (summary_covers_labelled_rows Decimal.decimal (mkOptions true true)
           df p). reflexivity.
Defined.

(** ** The order of the overall averages *)









(** ** An empty summary and the report *)

Lemma group_keys_nil (recs : list (cell * Qc)) :
  group_keys recs = [] ↔ ∀ k v, (k, v) ∈ recs → k = CNaN.
Proof.
  split.
  - intros Hnil k v Hin. destruct (decide (k = CNaN)) as [|Hk]; [done|].
    assert (k ∈ group_keys recs) as Hkey.
    { apply elem_of_group_keys. split; [by destruct k|].
      apply list_elem_of_fmap. by exists (k, v). }
    rewrite Hnil in Hkey. by apply elem_of_nil in Hkey.
  - intros Hall. destruct (group_keys recs) as [|k ks] eqn:Hks; [done|].
    assert (k ∈ group_keys recs) as Hkey by (rewrite Hks; by left).
    apply elem_of_group_keys in Hkey as [Hkey Hin].
    apply list_elem_of_fmap in Hin as ([k' v] & -> & Hin).
    apply Hall in Hin. simpl in Hkey. by subst.
Qed.

(** The summary is empty exactly when no row of the cleaned table has a
    label: when the cleaned table is empty, and also when the values are
    numbers but every label is missing. *)
Theorem summary_empty_iff (to_float : string → option Qc) (opts : Options)
    (df : DataFrame) (p : Processed) :
  aggregate to_float opts df = inr p →
  grouped_data p = [] ↔
  ∀ k v, (k, v) ∈ cleaned_table to_float df → k = CNaN.
Proof.
  intros (recs & -> & _ & ->)%aggregate_inr.
  rewrite <-group_keys_nil, <-(grouped_data_keys opts).
  split; [by intros ->|]. by intros ?%fmap_nil_inv.
Qed.

Lemma summary_empty_iff_witness :
  let df :=
    {| columns := [CStr "Measurement"; CStr "Percentage Loss"];
       rows := [[CNaN; CStr "2.5"]; [CStr "X"; CStr "abc"];
                [CNaN; CInt 7]] |} in
  let p := clean_and_group (mkOptions true true)
             (records Decimal.decimal df 0 1) in
  aggregate Decimal.decimal (mkOptions true true) df = inr p
  ∧ length (cleaned_table Decimal.decimal df) = 2
  ∧ (grouped_data p = [] ↔
     ∀ k v, (k, v) ∈ cleaned_table Decimal.decimal df → k = CNaN).
Proof.
  intros df p. split; [reflexivity|]. split; [reflexivity|].
  apply (summary_empty_iff Decimal.decimal (mkOptions true true) df p).
  reflexivity.
Defined.





(** ** Several files *)



Lemma grouped_frame_spec (to_float : string → option Qc)
    (file : string * list string) (header_row : nat) (grouped : list Combined.Row) :
  find_header_row file.2 = Some header_row →
  Combined.grouped_frame to_float file header_row = Some grouped →
  grouped = (λ g, (file.1, g)) <$> groupby_agg (Combined.cleaned_of to_float file).
Proof.
  intros Hh. unfold Combined.grouped_frame, Combined.cleaned_of. rewrite Hh.
  destruct (Pandas.read_csv file.2 header_row) as [|df]; [done|].
  unfold aggregate, cleaned_table.
  destruct (column_index df "Percentage Loss") as [v|]; [|done].
  destruct (column_index df "Measurement") as [k|]; [|done].
  by intros [= <-].
Qed.

Lemma process_files_spec (to_float : string → option Qc)
    (csv_files : list (string * list string))
    (skipped : list string) (frames : list (list Combined.Row)) :
  Combined.process_files to_float csv_files = (skipped, Some frames) →
  skipped = (filter (λ f, find_header_row f.2 = None) csv_files).*1
  ∧ frames
    = (λ f, (λ g, (f.1, g)) <$> groupby_agg (Combined.cleaned_of to_float f))
      <$> filter (λ f, find_header_row f.2 ≠ None) csv_files.
Proof.
  revert skipped frames.
  induction csv_files as [|file csv_files IH]; intros skipped frames.
  - by intros [= <- <-].
  - simpl. rewrite !filter_cons.
    destruct (find_header_row file.2) as [header_row|] eqn:Hh.
    + rewrite decide_False, decide_True by done.
      destruct (Combined.grouped_frame to_float file header_row)
        as [grouped|] eqn:Hg; [|done].
      destruct (Combined.process_files to_float csv_files)
        as [skipped' [frames'|]]; [|done].
      intros [= <- <-]. destruct (IH _ _ eq_refl) as [-> ->].
      split; [done|]. rewrite fmap_cons. f_equal.
      by apply grouped_frame_spec with header_row.
    + rewrite decide_True by done.
      rewrite decide_False by (intros H; by apply H).
      destruct (Combined.process_files to_float csv_files)
        as [skipped' [frames'|]]; [|done].
      intros [= <- <-]. destruct (IH _ _ eq_refl) as [-> ->]. done.
Qed.


Section Join.

Context (tables : list (string * list (cell * Qc))).









End Join.



Lemma process_files_no_header (to_float : string → option Qc)
    (csv_files : list (string * list string)) :
  Forall (λ f, find_header_row f.2 = None) csv_files →
  Combined.process_files to_float csv_files = (csv_files.*1, Some []).
Proof.
  induction 1 as [|file csv_files Hfile _ IH]; [done|].
  simpl. by rewrite Hfile, IH.
Qed.

(** The dialog for no valid data ends a run exactly when files are
    selected and none of them has a header line; every file is then named
    in a warning and the combined frame is left empty.  A file that has a
    header line counts as valid data even when no row below it is
    kept. *)
Theorem combined_no_valid_data (to_float : string → option Qc)
    (csv_files : list (string * list string))
    (previous : list Combined.Row) :
  (Combined.outcome (Combined.process_data to_float csv_files previous)
   = inl Combined.NoValidData
   ↔ csv_files ≠ [] ∧ Forall (λ f, find_header_row f.2 = None) csv_files)
  ∧ (Combined.outcome (Combined.process_data to_float csv_files previous)
     = inl Combined.NoValidData →
     Combined.skipped (Combined.process_data to_float csv_files previous)
     = csv_files.*1
     ∧ Combined.combined_data
         (Combined.process_data to_float csv_files previous) = []).
Proof.
  assert (Combined.outcome (Combined.process_data to_float csv_files previous)
          = inl Combined.NoValidData
          → csv_files ≠ []
            ∧ Forall (λ f, find_header_row f.2 = None) csv_files) as Hnv.
  { unfold Combined.process_data.
    destruct csv_files as [|file csv_files]; [done|].
    destruct (Combined.process_files to_float (file :: csv_files))
      as [skipped [frames|]] eqn:Hfiles; [|done].
    destruct (process_files_spec _ _ _ _ Hfiles) as [_ Hframes].
    destruct frames as [|frame frames]; [|done]. intros _. split; [done|].
    symmetry in Hframes. apply fmap_nil_inv in Hframes.
    apply Forall_forall. intros f Hf.
    destruct (find_header_row f.2) eqn:Hh; [|done].
    assert (f ∈ filter (λ f, find_header_row f.2 ≠ None) (file :: csv_files))
      as Hin by (apply list_elem_of_filter; split; [by rewrite Hh|done]).
    rewrite Hframes in Hin. by apply elem_of_nil in Hin. }
  assert (csv_files ≠ []
          → Forall (λ f, find_header_row f.2 = None) csv_files
          → Combined.process_data to_float csv_files previous
            = {| Combined.skipped := csv_files.*1;
                 Combined.combined_data := [];
                 Combined.outcome := inl Combined.NoValidData |}) as Hrun.
  { intros Hne Hall. unfold Combined.process_data.
    destruct csv_files as [|file csv_files]; [done|].
    by rewrite process_files_no_header. }
  split.
  - split; [done|]. intros [Hne Hall]. by rewrite Hrun.
  - intros [Hne Hall]%Hnv. by rewrite Hrun.
Qed.

(** A file with a header line and no record is valid data for the
    programs for several files: the run succeeds with an empty combined
    frame. *)
Example combined_header_only :
  Combined.process_data Decimal.decimal
    [("a.csv", ["Time,Metric,Value,Measurement,Percentage Loss"])] []
  = {| Combined.skipped := []; Combined.combined_data := [];
       Combined.outcome := inr [] |}.
Proof. reflexivity. Qed.




(** One file without the value column among three: the run fails and the
    summaries of the other two are not kept. *)
Example combined_bad_file_scenario :
  let header := "Time,Metric,Value,Measurement,Percentage Loss" in
  Combined.process_data Decimal.decimal
    [("a.csv", [header; "1,m,1,X,5"]);
     ("b.csv", ["x"]);
     ("c.csv", ["Time,Metric,Value,Measurement"; "1,m,1,X"]);
     ("d.csv", [header; "1,m,1,Y,7"])] []
  = {| Combined.skipped := ["b.csv"]; Combined.combined_data := [];
       Combined.outcome := inl Combined.ProcessingError |}.
Proof. reflexivity. Qed.
